(** * The leaderboard pipeline of [experiments/viewer/streamlit_app.py]

    A shallow embedding of [load_dynamodb_data], [format_repo_data] and the
    summary part of [main], with the Python values they handle.

    Conventions of the embedding:
    - a DynamoDB number (a [Decimal]) is the rational it denotes; a Python
      [float] is a double: the rational it denotes, an infinity or NaN.
      Conversions to [float] round to the nearest double; the sum and the
      mean of [main] are taken exactly, the rounding of float additions,
      which differs between versions of [sum], being left out;
    - a string is ASCII text: what the conversions do with other strings
      is not modelled;
    - a raised exception is the [Raise] result of an error monad, and a
      [try ... except] is a [match] on that result;
    - the clock of the cache is an integer number of seconds, passed in;
    - the presentation calls ([st.markdown], the charts) are left out. *)

From Stdlib Require Import ZArith QArith String Ascii List Sorted Permutation Lia.
From stdpp Require Import base option list sorting gmap strings.

Set Warnings "-register-all".

Local Open Scope string_scope.
Local Open Scope Z_scope.

(* ================================================================== *)
(** ** Python values *)

(** What the boto3 resource layer hands back for a DynamoDB attribute:
    [None], booleans, integers, numbers, strings, lists and maps. *)
Inductive pyval : Type :=
| VNone
| VBool (b : bool)
| VInt (z : Z)
| VNum (q : Q)
| VStr (s : string)
| VList (l : list pyval)
| VDict (d : gmap string pyval).

(** A record of the table: a Python [dict] with string keys. *)
Abbreviation item := (gmap string pyval).

Inductive pyexn : Type :=
| TypeError
| ValueError
| AttributeError
| ZeroDivisionError
| ClientError (msg : string).

Inductive result (A : Type) : Type :=
| Ok (a : A)
| Raise (e : pyexn).
Arguments Ok {A} & a.
Arguments Raise {A} e.

#[global] Instance result_ret : MRet result := fun _ a => Ok a.
#[global] Instance result_bind : MBind result := fun _ _ f m =>
  match m with
  | Ok a => f a
  | Raise e => Raise e
  end.

Definition is_ok {A} (r : result A) : bool :=
  match r with Ok _ => true | Raise _ => false end.

(** [str(e)] as it appears in the f-string of the handler. A failure of
    the store carries its message. The messages Python gives its built-in
    exceptions are not modelled: the name of the class stands in their
    place, and no property below rests on that text. *)
Definition exn_text (e : pyexn) : string :=
  match e with
  | TypeError => "TypeError"
  | ValueError => "ValueError"
  | AttributeError => "AttributeError"
  | ZeroDivisionError => "division by zero"
  | ClientError msg => msg
  end.

(* ------------------------------------------------------------------ *)
(** *** Floats *)

(** A value of type [float]: a finite double with its exact value, an
    infinity or NaN. The two zeros are not told apart; they compare
    equal. *)
Inductive pyfloat : Type :=
| FFinite (q : Q)
| FInf (negative : bool)
| FNaN.

Coercion FFinite : Q >-> pyfloat.

Definition is_nan (a : pyfloat) : bool :=
  match a with FNaN => true | _ => false end.

(** [a < b] on rationals. *)
Definition Qlt_bool (a b : Q) : bool := negb (Qle_bool b a).

(** [a < b] on floats: false as soon as one side is NaN. *)
Definition float_lt (a b : pyfloat) : bool :=
  match a, b with
  | FNaN, _ => false
  | _, FNaN => false
  | FInf true, FInf true => false
  | FInf true, _ => true
  | FInf false, _ => false
  | FFinite _, FInf negative => negb negative
  | FFinite x, FFinite y => Qlt_bool x y
  end.

(** [a == b] on floats: NaN equals nothing. *)
Definition float_eqb (a b : pyfloat) : bool :=
  match a, b with
  | FFinite x, FFinite y => Qeq_bool x y
  | FInf s, FInf t => Bool.eqb s t
  | _, _ => false
  end.

(** [a <= b] on floats. *)
Definition float_leb (a b : pyfloat) : bool := float_lt a b || float_eqb a b.

(** The integer nearest to [a / b] for [b > 0], ties to the even one. *)
Definition round_half_even (a b : Z) : Z :=
  let k := a / b in
  match Z.compare (2 * (a mod b)) b with
  | Lt => k
  | Gt => k + 1
  | Eq => if Z.even k then k else k + 1
  end.

(** [n / d] divided by [2 ^ p], as a fraction. *)
Definition scale2 (n d p : Z) : Z * Z :=
  if 0 <=? p then (n, d * 2 ^ p) else (n * 2 ^ (- p), d).

(** The double nearest to [n / d] for positive [n] and [d]: 53 bits of
    precision, the least exponent -1074 of the subnormal numbers, ties to
    even, infinity from [2 ^ 1024] on. *)
Definition round_pos (n d : Z) : pyfloat :=
  let e0 := Z.log2 n - Z.log2 d in
  let '(a0, b0) := scale2 n d e0 in
  let e := if b0 <=? a0 then e0 else e0 - 1 in
  let p := Z.max (e - 52) (- 1074) in
  let '(a, b) := scale2 n d p in
  let m := round_half_even a b in
  if (971 <? p) || ((p =? 971) && (2 ^ 53 <=? m)) then FInf false
  else if 0 <=? p then FFinite (inject_Z (m * 2 ^ p))
  else FFinite (Qred (Qmake m (Z.to_pos (2 ^ (- p))))).

Definition float_neg (a : pyfloat) : pyfloat :=
  match a with
  | FFinite q => FFinite (- q)
  | FInf s => FInf (negb s)
  | FNaN => FNaN
  end.

(** Correct rounding of a rational to a double, as [float] does for a
    [Decimal], an [int] and a numeral. *)
Definition round_double (q : Q) : pyfloat :=
  match Qnum q with
  | Z0 => FFinite 0
  | Zpos n => round_pos (Zpos n) (Zpos (Qden q))
  | Zneg n => float_neg (round_pos (Zpos n) (Zpos (Qden q)))
  end.

(** [a + b] on floats, exact on finite values. *)
Definition float_add (a b : pyfloat) : pyfloat :=
  match a, b with
  | FNaN, _ => FNaN
  | _, FNaN => FNaN
  | FInf s, FInf t => if Bool.eqb s t then FInf s else FNaN
  | FInf s, FFinite _ => FInf s
  | FFinite _, FInf t => FInf t
  | FFinite x, FFinite y => FFinite (x + y)
  end.

(** [a / n] for a float [a] and a non-zero integer [n], exact on finite
    values. *)
Definition float_div_int (a : pyfloat) (n : Z) : pyfloat :=
  match a with
  | FFinite x => FFinite (x / inject_Z n)
  | FInf s => FInf (xorb s (n <? 0))
  | FNaN => FNaN
  end.

(* ------------------------------------------------------------------ *)
(** *** Reading numbers out of strings *)

(** The white space [float] and [int] skip around an ASCII numeral: tab
    to carriage return, and the space. *)
Definition is_space (c : ascii) : bool :=
  let n := Z.of_nat (nat_of_ascii c) in
  ((9 <=? n) && (n <=? 13)) || (n =? 32).

Fixpoint lstrip (s : list ascii) : list ascii :=
  match s with
  | c :: r => if is_space c then lstrip r else s
  | [] => []
  end.

Definition strip (s : list ascii) : list ascii :=
  rev (lstrip (rev (lstrip s))).

Definition digit_of (c : ascii) : option Z :=
  let n := Z.of_nat (nat_of_ascii c) in
  if (48 <=? n) && (n <=? 57) then Some (n - 48) else None.

Definition starts_with_digit (s : list ascii) : bool :=
  match s with
  | c :: _ => match digit_of c with Some _ => true | None => false end
  | [] => false
  end.

(** Reads a run of decimal digits, in which single underscores may stand
    between two digits: its value, the number of its digits and what
    follows. *)
Fixpoint read_digits (s : list ascii) (acc : Z) (cnt : nat)
  : Z * nat * list ascii :=
  match s with
  | c :: r =>
      match digit_of c with
      | Some d => read_digits r (10 * acc + d) (S cnt)
      | None =>
          if Ascii.eqb c "_" && negb (Nat.eqb cnt 0) && starts_with_digit r
          then read_digits r acc cnt
          else (acc, cnt, s)
      end
  | [] => (acc, cnt, [])
  end.

Definition read_sign (s : list ascii) : Z * list ascii :=
  match s with
  | c :: r =>
      if Ascii.eqb c "+" then (1, r)
      else if Ascii.eqb c "-" then (-1, r)
      else (1, s)
  | [] => (1, [])
  end.

Definition is_exp_mark (c : ascii) : bool :=
  Ascii.eqb c "e" || Ascii.eqb c "E".

(** Lower case of an ASCII letter, for the spellings of infinity and
    NaN. *)
Definition lower_ascii (c : ascii) : ascii :=
  let n := nat_of_ascii c in
  if (Nat.leb 65 n && Nat.leb n 90)%bool then ascii_of_nat (n + 32) else c.

Definition spells (word : string) (s : list ascii) : bool :=
  String.eqb (string_of_list_ascii (map lower_ascii s)) word.

(** [float(s)] on a string: white space, an optional sign, then "inf",
    "infinity" or "nan" in any case, or digits with an optional fraction
    and an optional exponent. [None] stands for the [ValueError]. *)
Definition float_of_string (s : string) : option pyfloat :=
  let '(sg, s1) := read_sign (strip (list_ascii_of_string s)) in
  if spells "inf" s1 || spells "infinity" s1 then Some (FInf (sg <? 0))
  else if spells "nan" s1 then Some FNaN
  else
  let '(ip, n1, s2) := read_digits s1 0 0 in
  let '(fp, n2, s3) :=
    match s2 with
    | c :: r => if Ascii.eqb c "." then read_digits r 0 0 else (0, 0%nat, s2)
    | [] => (0, 0%nat, s2)
    end in
  if (n1 + n2 =? 0)%nat then None
  else
    let mant := Qmake (sg * (ip * 10 ^ Z.of_nat n2 + fp)) (Z.to_pos (10 ^ Z.of_nat n2)) in
    match s3 with
    | [] => Some (round_double mant)
    | c :: r =>
        if is_exp_mark c then
          let '(esg, s4) := read_sign r in
          let '(ev, n3, s5) := read_digits s4 0 0 in
          match n3, s5 with
          | S _, [] => Some (round_double (mant * Qpower (inject_Z 10) (esg * ev)))
          | _, _ => None
          end
        else None
    end.

(** The most digits [int] reads from a string, as Python sets it by
    default. *)
Definition int_max_str_digits : nat := 4300.

(** [int(s)] on a string: white space, an optional sign and digits, at
    most [int_max_str_digits] of them. *)
Definition int_of_string (s : string) : option Z :=
  let '(sg, s1) := read_sign (strip (list_ascii_of_string s)) in
  let '(v, n, s2) := read_digits s1 0 0 in
  match n, s2 with
  | S _, [] => if Nat.leb n int_max_str_digits then Some (sg * v) else None
  | _, _ => None
  end.

(* ------------------------------------------------------------------ *)
(** *** Built-in operations *)

(** [float(v)]. [VInt] stands for the integral numbers of the store,
    which arrive as [Decimal], and for the literal 0 of the source;
    beyond the range of the doubles a [Decimal] goes to infinity. *)
Definition py_float (v : pyval) : result pyfloat :=
  match v with
  | VNone => Raise TypeError
  | VBool b => Ok (FFinite (if b then 1%Q else 0%Q))
  | VInt z => Ok (round_double (inject_Z z))
  | VNum q => Ok (round_double q)
  | VStr s =>
      match float_of_string s with
      | Some q => Ok q
      | None => Raise ValueError
      end
  | VList _ => Raise TypeError
  | VDict _ => Raise TypeError
  end.

(** [int(v)]: truncation toward zero on a number. *)
Definition py_int (v : pyval) : result Z :=
  match v with
  | VNone => Raise TypeError
  | VBool b => Ok (if b then 1 else 0)
  | VInt z => Ok z
  | VNum q => Ok (Z.quot (Qnum q) (Z.pos (Qden q)))
  | VStr s =>
      match int_of_string s with
      | Some z => Ok z
      | None => Raise ValueError
      end
  | VList _ => Raise TypeError
  | VDict _ => Raise TypeError
  end.

(** Truth value of [v] in a condition. *)
Definition truthy (v : pyval) : bool :=
  match v with
  | VNone => false
  | VBool b => b
  | VInt z => negb (z =? 0)
  | VNum q => negb (Qnum q =? 0)
  | VStr s => negb (String.eqb s "")
  | VList l => match l with [] => false | _ => true end
  | VDict d => negb (bool_decide (d = ∅))
  end.

(** [d.get(k, dflt)] on a dictionary. *)
Definition dict_get (d : item) (k : string) (dflt : pyval) : pyval :=
  default dflt (d !! k).

(** [v.get(k, dflt)] on any value: only a [dict] has the method. *)
Definition py_get (v : pyval) (k : string) (dflt : pyval) : result pyval :=
  match v with
  | VDict d => Ok (dict_get d k dflt)
  | _ => Raise AttributeError
  end.

(** [a / n] with [n] an [int]. *)
Definition py_truediv (a : pyfloat) (n : Z) : result pyfloat :=
  if n =? 0 then Raise ZeroDivisionError else Ok (float_div_int a n).

(** [l[:n]] *)
Definition py_slice_to {A} (l : list A) (n : Z) : list A :=
  if 0 <=? n then firstn (Z.to_nat n) l
  else firstn (length l - Z.to_nat (- n)) l.

(* ================================================================== *)
(** ** [load_dynamodb_data]: scan, sort, truncate *)

(** The sort key of line 133: [float(x.get('final_score', 0))]. *)
Definition sort_key (x : item) : result pyfloat :=
  py_float (dict_get x "final_score" (VInt 0)).

(** [sorted(..., reverse=True)] is a stable sort; it is modelled on the
    list of (key, element) pairs by insertion from the right, where an
    element stops in front of the first one whose key is not larger. On
    keys without NaN every stable sort gives this list; with a NaN key the
    order [sorted] gives depends on its algorithm and need not be this
    one. *)
Fixpoint insert_desc {A} (x : pyfloat * A) (l : list (pyfloat * A))
  : list (pyfloat * A) :=
  match l with
  | [] => [x]
  | y :: r => if float_lt (fst x) (fst y) then y :: insert_desc x r else x :: l
  end.

Definition sort_desc {A} (l : list (pyfloat * A)) : list (pyfloat * A) :=
  foldr insert_desc [] l.

(** The keys are computed first, one call per element from left to right;
    the first call that raises ends the sort. *)
Fixpoint eval_keys {A} (key : A -> result pyfloat) (l : list A)
  : result (list (pyfloat * A)) :=
  match l with
  | [] => Ok []
  | x :: r => k ← key x; ks ← eval_keys key r; Ok ((k, x) :: ks)
  end.

Definition py_sorted_reverse {A} (key : A -> result pyfloat) (l : list A)
  : result (list A) :=
  ks ← eval_keys key l; Ok (map snd (sort_desc ks)).

(** Line 133. *)
Definition sorted_items (items : list item) : result (list item) :=
  py_sorted_reverse sort_key items.

(** Lines 133 to 135: the sort followed by [sorted_items[:limit]]. *)
Definition rank (items : list item) (limit : Z) : result (list item) :=
  s ← sorted_items items; Ok (py_slice_to s limit).

(** The body of [load_dynamodb_data]. [store] is what the session, the
    table scan and [response['Items']] produce together: the items, or the
    exception one of them raised. The second component is the message
    given to [st.error]. *)
Definition load_dynamodb_data_body (store : result (list item)) (limit : Z)
  : result (list item) * list string :=
  match (items ← store; rank items limit) with
  | Ok r => (Ok r, [])
  | Raise e => (Ok [], ["Error loading data from DynamoDB: " +:+ exn_text e])
  end.

(** The state the pipeline works on: the cache of the decorator, the
    number of scans sent to the store and the notices shown to the user. *)
Record app_state : Type := {
  cache : gmap Z (Z * list item);
  scans : nat;
  notices : list string
}.

Definition initial_state : app_state :=
  {| cache := ∅; scans := 0; notices := [] |}.

Definition ttl : Z := 300.

(** Modelled from the spec: the [st.cache_data] decorator is Streamlit's,
    not this repository's; section 4.2 describes it. An entry is kept per
    [limit] with the time it was stored and is valid while
    [now - cached_at < ttl]. *)
Definition cache_lookup {A} (now : Z) (key : Z) (c : gmap Z (Z * A)) : option A :=
  match c !! key with
  | Some (cached_at, v) => if bool_decide (now - cached_at < ttl) then Some v else None
  | None => None
  end.

(** Modelled from the spec: on a valid hit the cached value is returned
    and the function is not run; otherwise it is run, a result is stored
    with [cached_at = now], an exception is passed on and not stored. *)
Definition load_dynamodb_data (store : result (list item)) (now : Z) (limit : Z)
  (s : app_state) : result (list item) * app_state :=
  match cache_lookup now limit (cache s) with
  | Some v => (Ok v, s)
  | None =>
      let '(r, msgs) := load_dynamodb_data_body store limit in
      match r with
      | Ok v =>
          (Ok v, {| cache := <[limit := (now, v)]> (cache s);
                    scans := S (scans s);
                    notices := notices s ++ msgs |})
      | Raise e =>
          (Raise e, {| cache := cache s;
                       scans := S (scans s);
                       notices := notices s ++ msgs |})
      end
  end.

(* ================================================================== *)
(** ** [format_repo_data] *)

(** The dictionary built for one item, lines 150 to 166. Fields read with
    a plain [get] keep whatever value the store holds. *)
Record repo_data : Type := {
  repo_name : pyval;
  final_score : pyfloat;
  analysis_date : pyval;
  stars : Z;
  total_score : pyfloat;
  description : pyval;
  problem_clarity_score : option Z;
  adoption_ease_score : option Z;
  maturity_health_score : option Z;
  problem_solved : pyval;
  excitement_score : option Z;
  problem_solution_fit_score : option Z;
  credibility_adoption_score : option Z;
  key_praise_quote : pyval;
  main_criticism : pyval
}.

(** [int(d.get(k, 0)) if d.get(k) else None] *)
Definition opt_score (d : pyval) (k : string) : result (option Z) :=
  c ← py_get d k VNone;
  if truthy c then v ← py_get d k (VInt 0); n ← py_int v; Ok (Some n)
  else Ok None.

(** One turn of the loop, lines 146 to 166, in evaluation order. *)
Definition format_item (it : item) : result repo_data :=
  let oss_data := dict_get it "oss_insight_data" (VDict ∅) in
  let repo_analysis := dict_get it "repo_analysis" (VDict ∅) in
  let community_analysis := dict_get it "community_analysis" (VDict ∅) in
  let name := dict_get it "repo_name" (VStr "Unknown") in
  score ← py_float (dict_get it "final_score" (VInt 0));
  let date := dict_get it "analysis_date" (VStr "Unknown") in
  st ← (v ← py_get oss_data "stars" (VInt 0); py_int v);
  total ← (v ← py_get oss_data "total_score" (VInt 0); py_float v);
  descr ← py_get oss_data "description" (VStr "No description available");
  clarity ← opt_score repo_analysis "problem_clarity_score";
  ease ← opt_score repo_analysis "adoption_ease_score";
  maturity ← opt_score repo_analysis "maturity_health_score";
  solved ← py_get repo_analysis "problem_solved" (VStr "Not analyzed");
  excitement ← opt_score community_analysis "excitement_score";
  fit ← opt_score community_analysis "problem_solution_fit_score";
  cred ← opt_score community_analysis "credibility_adoption_score";
  praise ← py_get community_analysis "key_praise_quote" (VStr "");
  criticism ← py_get community_analysis "main_criticism" (VStr "");
  Ok {| repo_name := name;
        final_score := score;
        analysis_date := date;
        stars := st;
        total_score := total;
        description := descr;
        problem_clarity_score := clarity;
        adoption_ease_score := ease;
        maturity_health_score := maturity;
        problem_solved := solved;
        excitement_score := excitement;
        problem_solution_fit_score := fit;
        credibility_adoption_score := cred;
        key_praise_quote := praise;
        main_criticism := criticism |}.

(** The loop of lines 143 to 170: [formatted_repos] starts empty and
    grows by one [append] per item. *)
Fixpoint format_loop (items : list item) (formatted_repos : list repo_data)
  : result (list repo_data) :=
  match items with
  | [] => Ok formatted_repos
  | it :: rest =>
      repo ← format_item it;
      format_loop rest (formatted_repos ++ [repo])
  end.

Definition format_repo_data (items : list item) : result (list repo_data) :=
  format_loop items [].

(** The element-wise map in the error monad, to compare the loop with. *)
Fixpoint map_result {A B} (f : A -> result B) (l : list A) : result (list B) :=
  match l with
  | [] => Ok []
  | x :: r => y ← f x; ys ← map_result f r; Ok (y :: ys)
  end.

(* ================================================================== *)
(** ** The summary computed by [main] *)

Record Summary : Type := {
  count : nat;
  average_score : pyfloat;
  total_popularity : Z;
  analyzed_count : nat
}.

(** [sum(r['final_score'] for r in repos)]: from 0, left to right. *)
Definition sum_scores (repos : list repo_data) : pyfloat :=
  fold_left (fun acc r => float_add acc (final_score r)) repos (FFinite 0).

(** [sum(r['stars'] for r in repos)] *)
Definition sum_stars (repos : list repo_data) : Z :=
  fold_left (fun acc r => acc + stars r) repos 0.

Definition is_analyzed (r : repo_data) : bool :=
  match problem_clarity_score r with Some _ => true | None => false end.

(** [len([r for r in repos if r['problem_clarity_score'] is not None])] *)
Definition analyzed_repos (repos : list repo_data) : nat :=
  length (List.filter is_analyzed repos).

(** The four figures of lines 239 to 265, as written: the division is
    not guarded here. *)
Definition summarize (repos : list repo_data) : result Summary :=
  avg_score ← py_truediv (sum_scores repos) (Z.of_nat (length repos));
  Ok {| count := length repos;
        average_score := avg_score;
        total_popularity := sum_stars repos;
        analyzed_count := analyzed_repos repos |}.

Inductive outcome : Type :=
| NoData
| Dashboard (s : Summary) (repos : list repo_data).

Definition no_data_notice : string :=
  "No data available. Please check your DynamoDB connection.".

Definition add_notice (msg : string) (s : app_state) : app_state :=
  {| cache := cache s; scans := scans s; notices := notices s ++ [msg] |}.

(** [main] up to the overview figures: load, format, the emptiness test
    of line 228, then the summary. An exception of [format_repo_data] is
    not caught. *)
Definition main (store : result (list item)) (now : Z) (limit : Z) (s : app_state)
  : result outcome * app_state :=
  let '(raw, s1) := load_dynamodb_data store now limit s in
  match (raw_data ← raw; format_repo_data raw_data) with
  | Raise e => (Raise e, s1)
  | Ok repos =>
      match repos with
      | [] => (Ok NoData, add_notice no_data_notice s1)
      | _ :: _ =>
          match summarize repos with
          | Ok sm => (Ok (Dashboard sm repos), s1)
          | Raise e => (Raise e, s1)
          end
      end
  end.

(* ================================================================== *)
(** ** Vocabulary of the statements *)

(** The value stored under [k] inside the nested object [obj] of an item,
    if there is one. *)
Definition nested (it : item) (obj k : string) : option pyval :=
  match it !! obj with
  | Some (VDict d) => d !! k
  | _ => None
  end.

(** The score an item is ranked by, when its key can be computed. *)
Definition score_of (x : item) : pyfloat :=
  match sort_key x with Ok q => q | Raise _ => FFinite 0 end.

Definition has_score (q : pyfloat) (x : item) : bool := float_eqb (score_of x) q.

(** A record can be ranked when its key is a float other than NaN. *)
Definition rankable (x : item) : bool :=
  match sort_key x with
  | Ok f => negb (is_nan f)
  | Raise _ => false
  end.

Definition is_ascii (s : string) : bool :=
  forallb (fun c => Nat.ltb (nat_of_ascii c) 128) (list_ascii_of_string s).

(** A value [float] refuses: no number and no ASCII numeral. *)
Definition float_rejects (v : pyval) : bool :=
  match v with
  | VNone => true
  | VList _ => true
  | VDict _ => true
  | VStr s => is_ascii s && negb (is_ok (py_float v))
  | _ => false
  end.

(** The record holds a [final_score] that [float] refuses. *)
Definition score_rejected (x : item) : bool :=
  match x !! "final_score" with
  | Some v => float_rejects v
  | None => false
  end.

Definition float_coercible (v : pyval) : bool := is_ok (py_float v).
Definition int_coercible (v : pyval) : bool := is_ok (py_int v).

(** A nested object is usable when it is missing or a map. *)
Definition object_ok (it : item) (obj : string) : bool :=
  match it !! obj with
  | None => true
  | Some (VDict _) => true
  | Some _ => false
  end.

(** A required number is usable when missing or coercible. *)
Definition float_field_ok (o : option pyval) : bool :=
  match o with None => true | Some v => float_coercible v end.

Definition int_field_ok (o : option pyval) : bool :=
  match o with None => true | Some v => int_coercible v end.

(** An optional score is usable when missing, falsy or coercible. *)
Definition score_field_ok (o : option pyval) : bool :=
  match o with
  | None => true
  | Some v => negb (truthy v) || int_coercible v
  end.

Definition well_formed (it : item) : bool :=
  object_ok it "oss_insight_data"
  && object_ok it "repo_analysis"
  && object_ok it "community_analysis"
  && float_field_ok (it !! "final_score")
  && int_field_ok (nested it "oss_insight_data" "stars")
  && float_field_ok (nested it "oss_insight_data" "total_score")
  && score_field_ok (nested it "repo_analysis" "problem_clarity_score")
  && score_field_ok (nested it "repo_analysis" "adoption_ease_score")
  && score_field_ok (nested it "repo_analysis" "maturity_health_score")
  && score_field_ok (nested it "community_analysis" "excitement_score")
  && score_field_ok (nested it "community_analysis" "problem_solution_fit_score")
  && score_field_ok (nested it "community_analysis" "credibility_adoption_score").

(** What an item without any field is turned into. *)
Definition default_repo_data : repo_data :=
  {| repo_name := VStr "Unknown";
     final_score := 0%Q;
     analysis_date := VStr "Unknown";
     stars := 0;
     total_score := 0%Q;
     description := VStr "No description available";
     problem_clarity_score := None;
     adoption_ease_score := None;
     maturity_health_score := None;
     problem_solved := VStr "Not analyzed";
     excitement_score := None;
     problem_solution_fit_score := None;
     credibility_adoption_score := None;
     key_praise_quote := VStr "";
     main_criticism := VStr "" |}.

(** Sample records. *)
Definition item_A : item := {[ "repo_name" := VStr "A"; "final_score" := VStr "7.5" ]}.
Definition item_B : item := {[ "repo_name" := VStr "B"; "final_score" := VInt 3 ]}.
Definition item_null_object : item := {[ "oss_insight_data" := VNone ]}.
Definition item_bad_score : item := {[ "final_score" := VStr "abc" ]}.
Definition item_zero_clarity : item :=
  {[ "repo_analysis" := VDict {[ "problem_clarity_score" := VInt 0 ]} ]}.

(** What a successful turn of the loop has read, field by field. *)
Record reads (it : item) (r : repo_data) (oss ra ca : gmap string pyval) : Prop := {
  rd_oss : dict_get it "oss_insight_data" (VDict ∅) = VDict oss;
  rd_ra : dict_get it "repo_analysis" (VDict ∅) = VDict ra;
  rd_ca : dict_get it "community_analysis" (VDict ∅) = VDict ca;
  rd_name : repo_name r = dict_get it "repo_name" (VStr "Unknown");
  rd_score : py_float (dict_get it "final_score" (VInt 0)) = Ok (final_score r);
  rd_date : analysis_date r = dict_get it "analysis_date" (VStr "Unknown");
  rd_stars : py_int (dict_get oss "stars" (VInt 0)) = Ok (stars r);
  rd_total : py_float (dict_get oss "total_score" (VInt 0)) = Ok (total_score r);
  rd_descr : description r = dict_get oss "description" (VStr "No description available");
  rd_clarity : opt_score (VDict ra) "problem_clarity_score" = Ok (problem_clarity_score r);
  rd_ease : opt_score (VDict ra) "adoption_ease_score" = Ok (adoption_ease_score r);
  rd_maturity : opt_score (VDict ra) "maturity_health_score" = Ok (maturity_health_score r);
  rd_solved : problem_solved r = dict_get ra "problem_solved" (VStr "Not analyzed");
  rd_excitement : opt_score (VDict ca) "excitement_score" = Ok (excitement_score r);
  rd_fit : opt_score (VDict ca) "problem_solution_fit_score" = Ok (problem_solution_fit_score r);
  rd_cred : opt_score (VDict ca) "credibility_adoption_score" = Ok (credibility_adoption_score r);
  rd_praise : key_praise_quote r = dict_get ca "key_praise_quote" (VStr "");
  rd_criticism : main_criticism r = dict_get ca "main_criticism" (VStr "")
}.

(** How an optional score [o] of a ViewRecord relates to the nested field
    [src] it is read from: present exactly when the field is there and
    truthy, then holding its [int] value; in particular a stored 0 is
    dropped. *)
Definition score_reads (o : option Z) (src : option pyval) : Prop :=
  (is_Some o <-> exists v, src = Some v /\ truthy v = true)
  /\ (forall n, o = Some n -> exists v, src = Some v /\ py_int v = Ok n)
  /\ (src = Some (VInt 0) -> o = None).

Definition item_analyzed : item :=
  {[ "repo_name" := VStr "C";
     "final_score" := VNum (17 # 2);
     "oss_insight_data" := VDict {[ "stars" := VInt 120 ]};
     "repo_analysis" := VDict {[ "problem_clarity_score" := VNum (4 # 1);
                                 "adoption_ease_score" := VInt 0 ]} ]}.

Definition repo_analyzed : repo_data :=
  Eval vm_compute in
    match format_item item_analyzed with
    | Ok r => r
    | Raise _ => default_repo_data
    end.

(** The exceptions the conversions and [get] can raise. *)
Definition coercion_error (e : pyexn) : Prop :=
  e = TypeError \/ e = ValueError \/ e = AttributeError.

Definition repo_A : repo_data :=
  Eval vm_compute in
    match format_item item_A with
    | Ok r => r
    | Raise _ => default_repo_data
    end.

Definition repo_B : repo_data :=
  Eval vm_compute in
    match format_item item_B with
    | Ok r => r
    | Raise _ => default_repo_data
    end.

(* ================================================================== *)
(** ** [create_score_visualization]: the rows of the bar chart *)

(** Letters of a repository name. Names are taken to be ASCII, as the
    names of hosted repositories are; a byte above 127 is left alone. *)
Definition is_upper (c : ascii) : bool :=
  let n := Z.of_nat (nat_of_ascii c) in (65 <=? n) && (n <=? 90).

Definition is_lower (c : ascii) : bool :=
  let n := Z.of_nat (nat_of_ascii c) in (97 <=? n) && (n <=? 122).

Definition is_cased (c : ascii) : bool := is_upper c || is_lower c.

Definition to_upper (c : ascii) : ascii :=
  if is_lower c then ascii_of_nat (nat_of_ascii c - 32) else c.

Definition to_lower (c : ascii) : ascii :=
  if is_upper c then ascii_of_nat (nat_of_ascii c + 32) else c.

(** [s.replace(old, new)] for one-character [old] and [new]. *)
Fixpoint replace_char (old new : ascii) (s : string) : string :=
  match s with
  | EmptyString => EmptyString
  | String c r =>
      String (if Ascii.eqb c old then new else c) (replace_char old new r)
  end.

(** [s.title()] on ASCII text: a letter is put in upper case when the
    character before it is not a letter, in lower case otherwise. The
    letters are those of ASCII; a character outside ASCII is left as it
    is, which is not what [title] does with all of them. *)
Fixpoint title_from (previous_is_cased : bool) (s : string) : string :=
  match s with
  | EmptyString => EmptyString
  | String c r =>
      String (if previous_is_cased then to_lower c else to_upper c)
             (title_from (is_cased c) r)
  end.

Definition py_title (s : string) : string := title_from false s.

(** Line 177: [.str.replace('_', ' ').str.replace('-', ' ').str.title()]
    on one name. *)
Definition display_name (s : string) : string :=
  py_title (replace_char "-" " " (replace_char "_" " " s)).



(* ================================================================== *)
(** ** The leaderboard of [main], lines 283 to 424 *)

(** The three values chosen with the rank, lines 292 to 307. *)
Record badge : Type := {
  rank_gradient : string;
  rank_text_color : string;
  shadow_color : string
}.

Definition rank_badge (idx : Z) : badge :=
  if idx =? 1 then
    {| rank_gradient := "linear-gradient(135deg, #FFD700, #FFA500, #FFD700)";
       rank_text_color := "#000";
       shadow_color := "255, 215, 0" |}
  else if idx =? 2 then
    {| rank_gradient := "linear-gradient(135deg, #E5E5E5, #C0C0C0, #E5E5E5)";
       rank_text_color := "#000";
       shadow_color := "192, 192, 192" |}
  else if idx =? 3 then
    {| rank_gradient := "linear-gradient(135deg, #CD7F32, #A0522D, #CD7F32)";
       rank_text_color := "#FFF";
       shadow_color := "205, 127, 50" |}
  else
    {| rank_gradient := "linear-gradient(135deg, #667eea, #764ba2, #667eea)";
       rank_text_color := "#FFF";
       shadow_color := "102, 126, 234" |}.

Inductive heading : Type :=
| RepositoryAnalysis
| CommunityAnalysis.

Inductive metric_label : Type :=
| ProblemClarity
| EaseOfAdoption
| ProjectMaturity
| CommunityExcitement
| SolutionFit
| Credibility.

(** One Streamlit call of a card, with the values put into its text; the
    markup around them is left out. *)
Inductive element : Type :=
| RankBadge (idx : Z) (b : badge)
| Title (name : pyval)
| ScoreBadge (score : pyfloat)
| Break
| StarsBox (n : Z)
| TotalScoreBox (q : pyfloat)
| DescriptionInfo (d : pyval)
| ProblemSolvedInfo (p : pyval)
| Heading (h : heading)
| MetricBox (label : metric_label) (value : option Z)
| PraiseBox (quote : pyval)
| CriticismBox (c : pyval)
| DoubleBreak.

(** [v != s] for a string literal [s]: only a string can equal it. *)
Definition py_ne_str (v : pyval) (s : string) : bool :=
  match v with
  | VStr t => negb (String.eqb t s)
  | _ => true
  end.

Definition is_present (o : option Z) : bool :=
  match o with Some _ => true | None => false end.

(** The body of the loop of line 283 for one record. *)
Definition render_repo (show_detailed_metrics : bool) (idx : Z) (repo : repo_data)
  : list element :=
  [ RankBadge idx (rank_badge idx);
    Title (repo_name repo);
    ScoreBadge (final_score repo);
    Break;
    StarsBox (stars repo);
    TotalScoreBox (total_score repo);
    Break;
    DescriptionInfo (description repo) ]
  ++ (if truthy (problem_solved repo) && py_ne_str (problem_solved repo) "Not analyzed"
      then [ProblemSolvedInfo (problem_solved repo)] else [])
  ++ [Break]
  ++ (if show_detailed_metrics && is_present (problem_clarity_score repo)
      then [ Heading RepositoryAnalysis;
             MetricBox ProblemClarity (problem_clarity_score repo);
             MetricBox EaseOfAdoption (adoption_ease_score repo);
             MetricBox ProjectMaturity (maturity_health_score repo);
             Break ]
      else [])
  ++ (if show_detailed_metrics && is_present (excitement_score repo)
      then [ Heading CommunityAnalysis;
             MetricBox CommunityExcitement (excitement_score repo);
             MetricBox SolutionFit (problem_solution_fit_score repo);
             MetricBox Credibility (credibility_adoption_score repo);
             Break ]
      else [])
  ++ (if truthy (key_praise_quote repo) then [PraiseBox (key_praise_quote repo)] else [])
  ++ (if truthy (main_criticism repo) then [CriticismBox (main_criticism repo)] else [])
  ++ [DoubleBreak].

(** [enumerate(l, start)] *)
Fixpoint enumerate {A} (start : Z) (l : list A) : list (Z * A) :=
  match l with
  | [] => []
  | x :: r => (start, x) :: enumerate (start + 1) r
  end.

(** [for idx, repo in enumerate(repos, 1): ...]: one card per record. *)
Definition leaderboard (show_detailed_metrics : bool) (repos : list repo_data)
  : list (list element) :=
  map (fun p => render_repo show_detailed_metrics (fst p) (snd p)) (enumerate 1 repos).

Definition is_repo_metric (l : metric_label) : bool :=
  match l with
  | ProblemClarity | EaseOfAdoption | ProjectMaturity => true
  | _ => false
  end.

(** More sample records. *)
Definition item_C_low : item :=
  {[ "repo_name" := VStr "my_cool-repo"; "final_score" := VNum (1 # 2) ]}.

Definition item_ease_only : item :=
  {[ "repo_name" := VStr "D";
     "repo_analysis" := VDict {[ "problem_clarity_score" := VInt 0;
                                 "adoption_ease_score" := VInt 4 ]} ]}.

Definition repo_ease_only : repo_data :=
  Eval vm_compute in
    match format_item item_ease_only with
    | Ok r => r
    | Raise _ => default_repo_data
    end.

Definition item_null_name : item :=
  {[ "repo_name" := VNone;
     "oss_insight_data" := VDict {[ "description" := VNone ]} ]}.

Definition repo_null_name : repo_data :=
  Eval vm_compute in
    match format_item item_null_name with
    | Ok r => r
    | Raise _ => default_repo_data
    end.

(* ================================================================== *)
(** * Properties *)

(** ** The error monad *)

Lemma bind_Ok {A B} (f : A -> result B) (a : A) : (Ok a ≫= f) = f a.
Proof. reflexivity. Qed.

Lemma bind_Raise {A B} (f : A -> result B) (e : pyexn) : (Raise e ≫= f) = Raise e.
Proof. reflexivity. Qed.

Lemma bind_Ok_inv {A B} (f : A -> result B) (m : result A) (b : B) :
  (m ≫= f) = Ok b -> exists a, m = Ok a /\ f a = Ok b.
Proof. destruct m as [a|e]; [exists a; auto | discriminate]. Qed.

Ltac bind_inv H :=
  let a := fresh "a" in
  let Ha := fresh "Ha" in
  apply bind_Ok_inv in H as (a & Ha & H).

Lemma is_ok_true {A} (r : result A) : is_ok r = true -> exists a, r = Ok a.
Proof. destruct r as [a|e]; [exists a; reflexivity | discriminate]. Qed.

(** ** Comparing floats *)

Lemma Qlt_bool_true (a b : Q) : Qlt_bool a b = true -> (a < b)%Q.
Proof.
  unfold Qlt_bool. intros H. apply Qnot_le_lt. intros Hle.
  apply Qle_bool_iff in Hle. rewrite Hle in H. discriminate.
Qed.

Lemma Qlt_bool_false (a b : Q) : Qlt_bool a b = false -> (b <= a)%Q.
Proof.
  unfold Qlt_bool. intros H. apply Qle_bool_iff.
  destruct (Qle_bool b a); [reflexivity | discriminate].
Qed.

Lemma float_leb_finite (x y : Q) :
  float_leb (FFinite x) (FFinite y) = true <-> (x <= y)%Q.
Proof.
  unfold float_leb. simpl. rewrite orb_true_iff. split.
  - intros [H|H].
    + apply Qlt_le_weak, Qlt_bool_true, H.
    + apply Qeq_bool_iff in H. rewrite H. apply Qle_refl.
  - intros H. destruct (Qlt_bool x y) eqn:E; [now left | right].
    apply Qlt_bool_false in E. apply Qeq_bool_iff. now apply Qle_antisym.
Qed.


Lemma float_lt_leb (a b : pyfloat) : float_lt a b = true -> float_leb a b = true.
Proof. unfold float_leb. now intros ->. Qed.

Lemma float_nlt_leb (a b : pyfloat) :
  is_nan a = false -> is_nan b = false ->
  float_lt a b = false -> float_leb b a = true.
Proof.
  destruct a as [x|[]|], b as [y|[]|]; simpl; try congruence; try reflexivity.
  intros _ _ H. apply float_leb_finite, Qlt_bool_false, H.
Qed.

Lemma float_leb_trans (a b c : pyfloat) :
  float_leb a b = true -> float_leb b c = true -> float_leb a c = true.
Proof.
  destruct a as [x|[]|], b as [y|[]|], c as [z|[]|];
    try reflexivity; try discriminate.
  rewrite !float_leb_finite. apply Qle_trans.
Qed.

Lemma float_eqb_nlt (a b q : pyfloat) :
  float_eqb a q = true -> float_eqb b q = true -> float_lt a b = false.
Proof.
  destruct a as [x|[]|], b as [y|[]|], q as [z|[]|];
    try reflexivity; try discriminate.
  simpl. intros Hx Hy.
  apply Qeq_bool_iff in Hx. apply Qeq_bool_iff in Hy.
  destruct (Qlt_bool x y) eqn:E; [|reflexivity].
  apply Qlt_bool_true in E. rewrite Hx, Hy in E.
  exfalso. exact (Qlt_irrefl _ E).
Qed.

(** ** The conversions on strings *)

(** What [float] and [int] make of some strings: the white space they
    skip is the tab to the carriage return and the space, not the
    separators 28 to 31; infinity and NaN are read in any case of letters;
    an underscore stands between two digits only; a numeral is rounded to
    the nearest double. *)
Example conversions_on_strings :
  float_of_string " 7.5 " = Some (FFinite (15 # 2))
  /\ float_of_string (String (ascii_of_nat 31) "7.5") = None
  /\ float_of_string "-Infinity" = Some (FInf true)
  /\ float_of_string "NaN" = Some FNaN
  /\ float_of_string "1_0.5e1" = Some (FFinite 105)
  /\ float_of_string "1__0" = None
  /\ float_of_string "abc" = None
  /\ float_of_string "0.1"
     = Some (FFinite (3602879701896397 # 36028797018963968))
  /\ float_of_string "9007199254740993" = Some (FFinite 9007199254740992)
  /\ float_of_string "1e400" = Some (FInf false)
  /\ int_of_string " 1_0 " = Some 10
  /\ int_of_string (String (ascii_of_nat 28) "7") = None
  /\ int_of_string "7.0" = None.
Proof. repeat split; vm_compute; reflexivity. Qed.

(** ** The descending stable sort *)

Section SortDesc.
Context {A : Type}.
Implicit Types (x y : pyfloat * A) (l : list (pyfloat * A)) (q : pyfloat).

Local Abbreviation key_ge := (fun a b : pyfloat * A => float_leb (fst b) (fst a) = true).
Local Abbreviation key_is q := (fun p : pyfloat * A => float_eqb (fst p) q).
Local Abbreviation key_num := (fun p : pyfloat * A => is_nan (fst p) = false).
Local Abbreviation key_nlt := (fun a b : pyfloat * A => float_lt (fst a) (fst b) = false).

Lemma insert_desc_perm x l : Permutation (insert_desc x l) (x :: l).
Proof.
  induction l as [|y r IH]; simpl; [reflexivity|].
  destruct (float_lt (fst x) (fst y)); [|reflexivity].
  rewrite IH. apply perm_swap.
Qed.

Lemma sort_desc_perm l : Permutation (sort_desc l) l.
Proof.
  induction l as [|x r IH]; simpl; [reflexivity|].
  rewrite insert_desc_perm. now constructor.
Qed.

Lemma sort_desc_length l : length (sort_desc l) = length l.
Proof. apply Permutation_length, sort_desc_perm. Qed.

(** On keys that are numbers the result is in non-increasing order. *)
Lemma insert_desc_sorted x l :
  key_num x -> Forall key_num l ->
  StronglySorted key_ge l -> StronglySorted key_ge (insert_desc x l).
Proof.
  intros Hx Hl Hs. induction Hs as [|y r Hr IH Hy]; simpl.
  - repeat constructor.
  - inversion Hl as [|? ? Hny Hnr]; subst.
    destruct (float_lt (fst x) (fst y)) eqn:E.
    + constructor; [now apply IH|].
      eapply Permutation_Forall; [symmetry; apply insert_desc_perm|].
      constructor; [|exact Hy].
      apply float_lt_leb, E.
    + apply float_nlt_leb in E; [|assumption..].
      constructor; [constructor; assumption|].
      constructor; [exact E|].
      eapply List.Forall_impl; [|exact Hy].
      intros z Hz. simpl in *. eapply float_leb_trans; eassumption.
Qed.

Lemma sort_desc_sorted l :
  Forall key_num l -> StronglySorted key_ge (sort_desc l).
Proof.
  induction 1 as [|x r Hx Hr IH]; simpl; [constructor|].
  apply insert_desc_sorted; [exact Hx | | exact IH].
  eapply Permutation_Forall; [symmetry; apply sort_desc_perm | exact Hr].
Qed.





(** Insertion never moves an element across one of the same key. *)
Lemma insert_desc_filter q x l :
  List.filter (key_is q) (insert_desc x l) = List.filter (key_is q) (x :: l).
Proof.
  induction l as [|y r IH]; [reflexivity|].
  cbn [insert_desc]. destruct (float_lt (fst x) (fst y)) eqn:E; [|reflexivity].
  cbn [List.filter] in *. rewrite IH.
  destruct (float_eqb (fst x) q) eqn:Ex, (float_eqb (fst y) q) eqn:Ey; try reflexivity.
  exfalso. rewrite (float_eqb_nlt _ _ _ Ex Ey) in E. discriminate.
Qed.

Lemma sort_desc_filter q l :
  List.filter (key_is q) (sort_desc l) = List.filter (key_is q) l.
Proof.
  induction l as [|x r IH]; [reflexivity|].
  cbn [sort_desc foldr]. rewrite insert_desc_filter.
  cbn [List.filter]. fold (sort_desc r). now rewrite IH.
Qed.
End SortDesc.

(** ** Ranking: lines 133 to 135 *)

Lemma sort_key_ok (x : item) :
  float_field_ok (x !! "final_score") = true -> sort_key x = Ok (score_of x).
Proof.
  unfold score_of, sort_key, dict_get, float_field_ok, float_coercible.
  destruct (x !! "final_score") as [v|]; simpl; [|reflexivity].
  intros H. apply is_ok_true in H as [q Hq]. now rewrite Hq.
Qed.

Lemma rankable_ok (x : item) :
  rankable x = true ->
  float_field_ok (x !! "final_score") = true /\ is_nan (score_of x) = false.
Proof.
  unfold rankable, score_of, float_field_ok, float_coercible, sort_key, dict_get.
  destruct (x !! "final_score") as [v|]; simpl.
  - destruct (py_float v) as [f|e]; simpl; [|discriminate].
    intros H. split; [reflexivity|]. now destruct (is_nan f).
  - intros _. split; reflexivity.
Qed.

Lemma rankable_field_ok (items : list item) :
  Forall (fun x => rankable x = true) items ->
  Forall (fun x => float_field_ok (x !! "final_score") = true) items.
Proof.
  apply List.Forall_impl. intros x Hx. now apply rankable_ok in Hx as [? _].
Qed.


Lemma eval_keys_total (items : list item) :
  Forall (fun x => float_field_ok (x !! "final_score") = true) items ->
  eval_keys sort_key items = Ok (map (fun x => (score_of x, x)) items).
Proof.
  induction 1 as [|x r Hx Hr IH]; simpl; [reflexivity|].
  rewrite (sort_key_ok x Hx), bind_Ok, IH. reflexivity.
Qed.

Lemma decorated_forall (items : list item) :
  Forall (fun p : pyfloat * item => fst p = score_of (snd p))
         (map (fun x => (score_of x, x)) items).
Proof. induction items; simpl; constructor; auto. Qed.

Lemma decorated_numbers (items : list item) :
  Forall (fun x => rankable x = true) items ->
  Forall (fun p : pyfloat * item => is_nan (fst p) = false)
         (map (fun x => (score_of x, x)) items).
Proof.
  induction 1 as [|x r Hx Hr IH]; simpl; constructor; [|exact IH].
  now apply rankable_ok in Hx as [_ ?].
Qed.

Lemma undecorate (items : list item) :
  map snd (map (fun x => (score_of x, x)) items) = items.
Proof. induction items; simpl; congruence. Qed.

Lemma sorted_undecorate (l : list (pyfloat * item)) :
  Forall (fun p => fst p = score_of (snd p)) l ->
  StronglySorted (fun a b : pyfloat * item => float_leb (fst b) (fst a) = true) l ->
  StronglySorted (fun a b : item => float_leb (score_of b) (score_of a) = true)
                 (map snd l).
Proof.
  intros Hdec Hs. induction Hs as [|p r Hr IH Hp]; simpl; [constructor|].
  inversion Hdec as [|? ? Hp1 Hr1]; subst.
  constructor; [auto|].
  apply Forall_map. rewrite Forall_forall in *. intros z Hz. simpl.
  rewrite <- Hp1, <- (Hr1 z Hz). now apply Hp.
Qed.

Lemma filter_undecorate (q : pyfloat) (l : list (pyfloat * item)) :
  Forall (fun p => fst p = score_of (snd p)) l ->
  map snd (List.filter (fun p => float_eqb (fst p) q) l)
  = List.filter (has_score q) (map snd l).
Proof.
  induction 1 as [|p r Hp Hr IH]; simpl; [reflexivity|].
  unfold has_score at 1. rewrite <- Hp.
  destruct (float_eqb (fst p) q); simpl; now rewrite IH.
Qed.

Lemma filter_take_prefix {A} (f : A -> bool) (n : nat) (l : list A) :
  List.filter f (take n l) `prefix_of` List.filter f l.
Proof.
  exists (List.filter f (drop n l)).
  now rewrite <- List.filter_app, take_drop.
Qed.

(** What line 133 returns on records whose score can be read: the
    records of the scan, those of one score in the order of the scan. *)
Lemma sorted_items_perm (items : list item) :
  Forall (fun x => float_field_ok (x !! "final_score") = true) items ->
  exists s,
    sorted_items items = Ok s
    /\ Permutation s items
    /\ (forall q, List.filter (has_score q) s = List.filter (has_score q) items).
Proof.
  intros Hok.
  set (dec := map (fun x => (score_of x, x)) items).
  assert (Hdec : Forall (fun p : pyfloat * item => fst p = score_of (snd p))
                        (sort_desc dec)).
  { eapply Permutation_Forall; [symmetry; apply sort_desc_perm|].
    apply decorated_forall. }
  exists (map snd (sort_desc dec)). repeat split.
  - unfold sorted_items, py_sorted_reverse.
    rewrite (eval_keys_total items Hok). reflexivity.
  - transitivity (map snd dec); [apply Permutation_map, sort_desc_perm|].
    unfold dec. now rewrite undecorate.
  - intros q. rewrite <- (filter_undecorate q _ Hdec), sort_desc_filter.
    rewrite (filter_undecorate q dec (decorated_forall items)).
    unfold dec. now rewrite undecorate.
Qed.

(** On scores that are numbers the result is in non-increasing order. *)
Lemma sorted_items_spec (items : list item) :
  Forall (fun x => rankable x = true) items ->
  exists s,
    sorted_items items = Ok s
    /\ Permutation s items
    /\ StronglySorted (fun a b => float_leb (score_of b) (score_of a) = true) s
    /\ (forall q, List.filter (has_score q) s = List.filter (has_score q) items).
Proof.
  intros Hrk.
  destruct (sorted_items_perm items (rankable_field_ok items Hrk))
    as (s & Hs & Hperm & Hstable).
  exists s. repeat split; try assumption.
  unfold sorted_items, py_sorted_reverse in Hs.
  rewrite (eval_keys_total items (rankable_field_ok items Hrk)) in Hs.
  simpl in Hs. inversion Hs as [Heq].
  apply sorted_undecorate.
  - eapply Permutation_Forall; [symmetry; apply sort_desc_perm|].
    apply decorated_forall.
  - apply sort_desc_sorted, decorated_numbers, Hrk.
Qed.

(** C2 (as amended): for every sequence of records whose [final_score] is
    missing or is converted by [float] to a number, not to NaN (a score
    held as a string being an ASCII numeral), and every [limit >= 0], the
    sort and truncate step returns a sequence of length
    [min(limit, len(items))], non-increasing by the float of the score, in
    which the records of any one score keep the order they had in the scan;
    the records left out score no higher than those kept, and [limit = 0]
    gives the empty sequence. [load_dynamodb_data] hands that sequence back
    unchanged and shows no notice. *)
Theorem rank_sorted_stable_truncated (items : list item) (limit : Z) :
  Forall (fun x => rankable x = true) items ->
  0 <= limit ->
  exists ranked rest,
    rank items limit = Ok ranked
    /\ load_dynamodb_data_body (Ok items) limit = (Ok ranked, [])
    /\ length ranked = Nat.min (Z.to_nat limit) (length items)
    /\ StronglySorted (fun a b => float_leb (score_of b) (score_of a) = true) ranked
    /\ (forall q, List.filter (has_score q) ranked
                  `prefix_of` List.filter (has_score q) items)
    /\ Permutation (ranked ++ rest) items
    /\ (forall x y, x ∈ ranked -> y ∈ rest ->
                    float_leb (score_of y) (score_of x) = true)
    /\ (limit = 0 -> ranked = []).
Proof.
  intros Hok Hlim.
  destruct (sorted_items_spec items Hok) as (s & Hs & Hperm & Hsorted & Hstable).
  set (n := Z.to_nat limit).
  assert (Hrank : rank items limit = Ok (take n s)).
  { unfold rank. rewrite Hs, bind_Ok. unfold py_slice_to.
    destruct (Z.leb_spec 0 limit); [reflexivity | lia]. }
  assert (Hsplit : StronglySorted
                     (fun a b => float_leb (score_of b) (score_of a) = true)
                     (take n s ++ drop n s)).
  { now rewrite take_drop. }
  exists (take n s), (drop n s). repeat split.
  - exact Hrank.
  - unfold load_dynamodb_data_body. rewrite bind_Ok, Hrank. reflexivity.
  - rewrite length_take. now rewrite (Permutation_length Hperm).
  - eapply StronglySorted_app_1_l, Hsplit.
  - intros q. rewrite <- Hstable. apply filter_take_prefix.
  - now rewrite take_drop.
  - intros x y Hx Hy.
    exact (StronglySorted_app_1_elem_of _ _ _ _ _ Hsplit Hx Hy).
  - intros ->. reflexivity.
Qed.

Lemma rank_sorted_stable_truncated_witness :
  exists ranked rest,
    rank [item_B; item_A; item_B] 2 = Ok ranked
    /\ load_dynamodb_data_body (Ok [item_B; item_A; item_B]) 2 = (Ok ranked, [])
    /\ length ranked = Nat.min (Z.to_nat 2) (length [item_B; item_A; item_B])
    /\ StronglySorted (fun a b => float_leb (score_of b) (score_of a) = true) ranked
    /\ (forall q, List.filter (has_score q) ranked
                  `prefix_of` List.filter (has_score q) [item_B; item_A; item_B])
    /\ Permutation (ranked ++ rest) [item_B; item_A; item_B]
    /\ (forall x y, x ∈ ranked -> y ∈ rest ->
                    float_leb (score_of y) (score_of x) = true)
    /\ (2 = 0 -> ranked = []).
Proof.
  apply (rank_sorted_stable_truncated [item_B; item_A; item_B] 2).
  - repeat constructor; vm_compute; reflexivity.
  - lia.
Defined.

(** C2 as stated fails on a record whose score cannot be read: the key
    function raises inside the sort, the handler of
    [load_dynamodb_data] reports it and answers with the empty list, and
    one record with [limit = 1] gives length 0 instead of 1. *)
Lemma rank_unreadable_score_counterexample :
  0 <= 1
  /\ rank [item_bad_score] 1 = Raise ValueError
  /\ fst (load_dynamodb_data_body (Ok [item_bad_score]) 1) = Ok []
  /\ length (snd (load_dynamodb_data_body (Ok [item_bad_score]) 1)) = 1%nat
  /\ length (@nil item) <> Nat.min (Z.to_nat 1) (length [item_bad_score]).
Proof.
  split; [lia|]. split; [vm_compute; reflexivity|].
  split; [vm_compute; reflexivity|].
  split; [vm_compute; reflexivity|]. simpl. lia.
Qed.

(** ** Normalising one record *)

Lemma nested_of_dict_get (it : item) (obj : string) (d : gmap string pyval) :
  dict_get it obj (VDict ∅) = VDict d -> forall k, nested it obj k = d !! k.
Proof.
  unfold dict_get, nested. intros H k.
  destruct (it !! obj) as [v|]; simpl in H.
  - subst v. reflexivity.
  - inversion H. now rewrite lookup_empty.
Qed.

Lemma object_ok_dict (it : item) (obj : string) :
  object_ok it obj = true -> exists d, dict_get it obj (VDict ∅) = VDict d.
Proof.
  unfold object_ok, dict_get.
  destruct (it !! obj) as [v|]; simpl; [|now exists ∅].
  destruct v; try discriminate. intros _. now eexists.
Qed.

Lemma py_get_Ok_inv (v : pyval) (k : string) (dflt w : pyval) :
  py_get v k dflt = Ok w -> exists d, v = VDict d /\ w = dict_get d k dflt.
Proof. destruct v; simpl; try discriminate. intros H. inversion H. eauto. Qed.

(** The conditional of lines 157 to 163 on a dictionary. *)
Lemma opt_score_dict (d : gmap string pyval) (k : string) :
  opt_score (VDict d) k
  = match d !! k with
    | Some v => if truthy v then n ← py_int v; Ok (Some n) else Ok None
    | None => Ok None
    end.
Proof.
  unfold opt_score. simpl. unfold dict_get.
  destruct (d !! k) as [v|]; reflexivity.
Qed.

Lemma opt_score_present (d : gmap string pyval) (k : string) (o : option Z) :
  opt_score (VDict d) k = Ok o ->
  (is_Some o <-> exists v, d !! k = Some v /\ truthy v = true).
Proof.
  rewrite opt_score_dict. destruct (d !! k) as [v|].
  - destruct (truthy v) eqn:T.
    + intros H. apply bind_Ok_inv in H as (n & _ & H). inversion H.
      split; [eauto | intros _; eauto].
    + intros H. inversion H. split.
      * intros [? ?]; discriminate.
      * intros (v' & Hv & Ht). inversion Hv; subst. congruence.
  - intros H. inversion H. split.
    + intros [? ?]; discriminate.
    + intros (v' & Hv & _). discriminate.
Qed.

Lemma opt_score_total (d : gmap string pyval) (k : string) :
  score_field_ok (d !! k) = true -> exists o, opt_score (VDict d) k = Ok o.
Proof.
  rewrite opt_score_dict. unfold score_field_ok, int_coercible.
  destruct (d !! k) as [v|]; [|eauto].
  destruct (truthy v); simpl; [|eauto].
  intros H. apply is_ok_true in H as [n Hn]. rewrite Hn. eauto.
Qed.

Lemma format_item_inv (it : item) (r : repo_data) :
  format_item it = Ok r -> exists oss ra ca, reads it r oss ra ca.
Proof.
  unfold format_item. intros H.
  repeat match type of H with (_ ≫= _) = Ok _ => bind_inv H end.
  apply py_get_Ok_inv in Ha2 as (oss & Hoss & ->).
  apply py_get_Ok_inv in Ha6 as (ra & Hra & ->).
  apply py_get_Ok_inv in Ha11 as (ca & Hca & ->).
  rewrite Hoss in Ha0, Ha1. rewrite Hca in Ha10.
  rewrite Hra in Ha3, Ha4, Ha5. rewrite Hca in Ha7, Ha8, Ha9.
  simpl in Ha0, Ha1, Ha10.
  inversion Ha10; subst a10. inversion H; subst r.
  exists oss, ra, ca. constructor; simpl; auto.
Qed.

Lemma format_item_intro (it : item) (r : repo_data) (oss ra ca : gmap string pyval) :
  reads it r oss ra ca -> format_item it = Ok r.
Proof.
  intros [].
  unfold format_item.
  rewrite rd_oss0, rd_ra0, rd_ca0, rd_score0, bind_Ok. simpl py_get.
  rewrite !bind_Ok, rd_stars0, bind_Ok, rd_total0, !bind_Ok.
  rewrite rd_clarity0, bind_Ok, rd_ease0, bind_Ok, rd_maturity0, !bind_Ok.
  rewrite rd_excitement0, bind_Ok, rd_fit0, bind_Ok, rd_cred0, !bind_Ok.
  destruct r; simpl in *. subst. reflexivity.
Qed.

Lemma float_field_total (d : gmap string pyval) (k : string) :
  float_field_ok (d !! k) = true ->
  exists q, py_float (dict_get d k (VInt 0)) = Ok q /\ (d !! k = None -> q = 0%Q).
Proof.
  unfold float_field_ok, float_coercible, dict_get.
  destruct (d !! k) as [v|]; simpl.
  - intros H. apply is_ok_true in H as [q Hq]. exists q. split; [exact Hq | discriminate].
  - intros _. exists 0%Q. split; reflexivity.
Qed.

Lemma int_field_total (d : gmap string pyval) (k : string) :
  int_field_ok (d !! k) = true ->
  exists n, py_int (dict_get d k (VInt 0)) = Ok n /\ (d !! k = None -> n = 0).
Proof.
  unfold int_field_ok, int_coercible, dict_get.
  destruct (d !! k) as [v|]; simpl.
  - intros H. apply is_ok_true in H as [n Hn]. exists n. split; [exact Hn | discriminate].
  - intros _. exists 0. split; reflexivity.
Qed.

Lemma opt_score_absent (d : gmap string pyval) (k : string) (o : option Z) :
  opt_score (VDict d) k = Ok o -> d !! k = None -> o = None.
Proof. rewrite opt_score_dict. intros H E. rewrite E in H. now inversion H. Qed.

(** C1 (as amended): for every RawRecord whose nested sub-objects are each
    missing or a map, whose [final_score], [stars] and [total_score] are
    each missing or converted by [float] / [int], and whose six optional
    scores are each missing, falsy or converted by [int] (a field held as
    a string being an ASCII numeral of the conversion), the normaliser
    returns a ViewRecord without raising; a missing number becomes 0 and a
    missing optional score is absent. *)
Theorem format_item_total (it : item) :
  well_formed it = true ->
  exists r,
    format_item it = Ok r
    /\ format_repo_data [it] = Ok [r]
    /\ (it !! "final_score" = None -> final_score r = 0%Q)
    /\ (nested it "oss_insight_data" "stars" = None -> stars r = 0)
    /\ (nested it "oss_insight_data" "total_score" = None -> total_score r = 0%Q)
    /\ (nested it "repo_analysis" "problem_clarity_score" = None ->
        problem_clarity_score r = None)
    /\ (nested it "repo_analysis" "adoption_ease_score" = None ->
        adoption_ease_score r = None)
    /\ (nested it "repo_analysis" "maturity_health_score" = None ->
        maturity_health_score r = None)
    /\ (nested it "community_analysis" "excitement_score" = None ->
        excitement_score r = None)
    /\ (nested it "community_analysis" "problem_solution_fit_score" = None ->
        problem_solution_fit_score r = None)
    /\ (nested it "community_analysis" "credibility_adoption_score" = None ->
        credibility_adoption_score r = None).
Proof.
  unfold well_formed. rewrite !andb_true_iff.
  intros [[[[[[[[[[[O1 O2] O3] F] S] T] C1] C2] C3] C4] C5] C6].
  apply object_ok_dict in O1 as [oss Hoss].
  apply object_ok_dict in O2 as [ra Hra].
  apply object_ok_dict in O3 as [ca Hca].
  rewrite !(nested_of_dict_get _ _ _ Hoss) in *.
  rewrite !(nested_of_dict_get _ _ _ Hra) in *.
  rewrite !(nested_of_dict_get _ _ _ Hca) in *.
  apply float_field_total in F as (score & Hscore & Dscore).
  apply int_field_total in S as (st & Hst & Dst).
  apply float_field_total in T as (total & Htotal & Dtotal).
  apply opt_score_total in C1 as [c1 H1]. apply opt_score_total in C2 as [c2 H2].
  apply opt_score_total in C3 as [c3 H3]. apply opt_score_total in C4 as [c4 H4].
  apply opt_score_total in C5 as [c5 H5]. apply opt_score_total in C6 as [c6 H6].
  set (r := {| repo_name := dict_get it "repo_name" (VStr "Unknown");
               final_score := score;
               analysis_date := dict_get it "analysis_date" (VStr "Unknown");
               stars := st;
               total_score := total;
               description := dict_get oss "description" (VStr "No description available");
               problem_clarity_score := c1;
               adoption_ease_score := c2;
               maturity_health_score := c3;
               problem_solved := dict_get ra "problem_solved" (VStr "Not analyzed");
               excitement_score := c4;
               problem_solution_fit_score := c5;
               credibility_adoption_score := c6;
               key_praise_quote := dict_get ca "key_praise_quote" (VStr "");
               main_criticism := dict_get ca "main_criticism" (VStr "") |}).
  assert (Hr : format_item it = Ok r).
  { apply (format_item_intro it r oss ra ca). constructor; auto. }
  exists r. split; [exact Hr|]. split.
  { unfold format_repo_data. simpl. now rewrite Hr. }
  simpl. repeat split; eauto using opt_score_absent.
Qed.

Lemma format_item_total_witness :
  exists r,
    format_item item_A = Ok r
    /\ format_repo_data [item_A] = Ok [r]
    /\ (item_A !! "final_score" = None -> final_score r = 0%Q)
    /\ (nested item_A "oss_insight_data" "stars" = None -> stars r = 0)
    /\ (nested item_A "oss_insight_data" "total_score" = None -> total_score r = 0%Q)
    /\ (nested item_A "repo_analysis" "problem_clarity_score" = None ->
        problem_clarity_score r = None)
    /\ (nested item_A "repo_analysis" "adoption_ease_score" = None ->
        adoption_ease_score r = None)
    /\ (nested item_A "repo_analysis" "maturity_health_score" = None ->
        maturity_health_score r = None)
    /\ (nested item_A "community_analysis" "excitement_score" = None ->
        excitement_score r = None)
    /\ (nested item_A "community_analysis" "problem_solution_fit_score" = None ->
        problem_solution_fit_score r = None)
    /\ (nested item_A "community_analysis" "credibility_adoption_score" = None ->
        credibility_adoption_score r = None).
Proof.
  apply (format_item_total item_A). vm_compute. reflexivity.
Defined.

(** C1 as stated fails: a nested object that is present but null has no
    [get] method, and a score that is not numeric text cannot be read by
    [float]; either raises out of [format_repo_data]. *)
Lemma format_repo_data_raises_counterexample :
  format_repo_data [item_null_object] = Raise AttributeError
  /\ format_repo_data [item_bad_score] = Raise ValueError.
Proof. split; vm_compute; reflexivity. Qed.

(** ** Normalising a sequence *)

Lemma format_loop_acc (items : list item) (acc : list repo_data) :
  format_loop items acc
  = (ys ← map_result format_item items; Ok (acc ++ ys)%list).
Proof.
  revert acc. induction items as [|it rest IH]; intros acc; simpl.
  - now rewrite app_nil_r.
  - destruct (format_item it) as [r|e]; simpl; [|reflexivity].
    rewrite IH. destruct (map_result format_item rest) as [ys|e]; simpl; [|reflexivity].
    now rewrite <- app_assoc.
Qed.

Lemma map_result_Forall2 {A B} (f : A -> result B) (l : list A) (ys : list B) :
  map_result f l = Ok ys <-> Forall2 (fun x y => f x = Ok y) l ys.
Proof.
  revert ys. induction l as [|x r IH]; intros ys; simpl.
  - split.
    + intros H. inversion H. constructor.
    + intros H. inversion H. reflexivity.
  - split.
    + intros H. bind_inv H. bind_inv H. inversion H; subst.
      constructor; [assumption | now apply IH].
    + intros H. inversion H as [|? y ? ys' Hx Hr]; subst.
      rewrite Hx, bind_Ok. apply IH in Hr. now rewrite Hr.
Qed.

Lemma format_repo_data_elementwise_eq (items : list item) :
  format_repo_data items = map_result format_item items.
Proof.
  unfold format_repo_data. rewrite format_loop_acc.
  destruct (map_result format_item items); reflexivity.
Qed.

(** C9 (as amended): [format_repo_data] is the element-wise map of the
    single-record normaliser: it returns a list exactly when every record
    of the input normalises, and that list pairs off with the input, one
    ViewRecord per RawRecord in the same order; on any other input it
    returns no list but raises. *)
Theorem format_repo_data_elementwise (items : list item) :
  format_repo_data items = map_result format_item items
  /\ forall repos,
       format_repo_data items = Ok repos
       <-> Forall2 (fun it r => format_item it = Ok r) items repos.
Proof.
  pose proof (format_repo_data_elementwise_eq items) as E.
  split; [exact E|]. intros repos. rewrite E. apply map_result_Forall2.
Qed.

(** C9 as stated fails: not every input list comes back as a list. On a
    scan of two records of which the second holds a null sub-object the
    function raises, and the ViewRecord of the first record, which
    normalises, is returned to nobody. *)
Lemma format_repo_data_no_list_counterexample :
  format_item item_A = Ok repo_A
  /\ format_repo_data [item_A; item_null_object] = Raise AttributeError
  /\ forall repos, format_repo_data [item_A; item_null_object] <> Ok repos.
Proof.
  split; [vm_compute; reflexivity|].
  assert (H : format_repo_data [item_A; item_null_object] = Raise AttributeError)
    by (vm_compute; reflexivity).
  split; [exact H|]. intros repos. rewrite H. discriminate.
Qed.

(** ** Optional scores *)

Lemma opt_score_reads (d : gmap string pyval) (k : string) (o : option Z) :
  opt_score (VDict d) k = Ok o -> score_reads o (d !! k).
Proof.
  intros H. split; [exact (opt_score_present d k o H)|].
  rewrite opt_score_dict in H. split.
  - intros n ->. destruct (d !! k) as [v|]; [|discriminate].
    destruct (truthy v); [|discriminate].
    bind_inv H. inversion H; subst. eauto.
  - intros E. rewrite E in H. simpl in H. now inversion H.
Qed.

Lemma score_reads_missing (o : option Z) : score_reads o None -> o = None.
Proof.
  intros [H _]. destruct o as [n|]; [|reflexivity].
  destruct H as [H _]. destruct H as (v & Hv & _); [eauto | discriminate].
Qed.

Lemma nested_missing_object (it : item) (obj k : string) :
  it !! obj = None -> nested it obj k = None.
Proof. unfold nested. now intros ->. Qed.

(** C4 (as amended): for every RawRecord that normalises, each of the six
    optional scores is present in the ViewRecord if and only if the nested
    field exists and is truthy (not null, not zero, not empty), and then
    holds its [int] value; a nested field holding the integer 0 yields
    absence. If [repo_analysis] is missing altogether, the three analysis
    scores are absent and the one-record set has [analyzed_count] 0. *)
Theorem optional_scores_present_iff_truthy (it : item) (r : repo_data) :
  format_item it = Ok r ->
  score_reads (problem_clarity_score r) (nested it "repo_analysis" "problem_clarity_score")
  /\ score_reads (adoption_ease_score r) (nested it "repo_analysis" "adoption_ease_score")
  /\ score_reads (maturity_health_score r) (nested it "repo_analysis" "maturity_health_score")
  /\ score_reads (excitement_score r) (nested it "community_analysis" "excitement_score")
  /\ score_reads (problem_solution_fit_score r)
                 (nested it "community_analysis" "problem_solution_fit_score")
  /\ score_reads (credibility_adoption_score r)
                 (nested it "community_analysis" "credibility_adoption_score")
  /\ (it !! "repo_analysis" = None ->
      problem_clarity_score r = None
      /\ adoption_ease_score r = None
      /\ maturity_health_score r = None
      /\ exists sm, summarize [r] = Ok sm /\ analyzed_count sm = 0%nat).
Proof.
  intros H. apply format_item_inv in H as (oss & ra & ca & []).
  rewrite !(nested_of_dict_get _ _ _ rd_ra0).
  rewrite !(nested_of_dict_get _ _ _ rd_ca0).
  pose proof (opt_score_reads _ _ _ rd_clarity0) as R1.
  pose proof (opt_score_reads _ _ _ rd_ease0) as R2.
  pose proof (opt_score_reads _ _ _ rd_maturity0) as R3.
  repeat (split; [solve [eauto using opt_score_reads]|]).
  intros Hmiss.
  rewrite <- (nested_of_dict_get _ _ _ rd_ra0), (nested_missing_object _ _ _ Hmiss) in R1.
  rewrite <- (nested_of_dict_get _ _ _ rd_ra0), (nested_missing_object _ _ _ Hmiss) in R2.
  rewrite <- (nested_of_dict_get _ _ _ rd_ra0), (nested_missing_object _ _ _ Hmiss) in R3.
  apply score_reads_missing in R1, R2, R3.
  repeat (split; [assumption|]).
  eexists. split; [reflexivity|].
  simpl. unfold analyzed_repos, is_analyzed. simpl. now rewrite R1.
Qed.

Lemma optional_scores_present_iff_truthy_witness :
  score_reads (problem_clarity_score repo_analyzed)
              (nested item_analyzed "repo_analysis" "problem_clarity_score")
  /\ score_reads (adoption_ease_score repo_analyzed)
                 (nested item_analyzed "repo_analysis" "adoption_ease_score")
  /\ score_reads (maturity_health_score repo_analyzed)
                 (nested item_analyzed "repo_analysis" "maturity_health_score")
  /\ score_reads (excitement_score repo_analyzed)
                 (nested item_analyzed "community_analysis" "excitement_score")
  /\ score_reads (problem_solution_fit_score repo_analyzed)
                 (nested item_analyzed "community_analysis" "problem_solution_fit_score")
  /\ score_reads (credibility_adoption_score repo_analyzed)
                 (nested item_analyzed "community_analysis" "credibility_adoption_score")
  /\ (item_analyzed !! "repo_analysis" = None ->
      problem_clarity_score repo_analyzed = None
      /\ adoption_ease_score repo_analyzed = None
      /\ maturity_health_score repo_analyzed = None
      /\ exists sm, summarize [repo_analyzed] = Ok sm /\ analyzed_count sm = 0%nat).
Proof.
  apply (optional_scores_present_iff_truthy item_analyzed repo_analyzed).
  vm_compute. reflexivity.
Defined.

(** C4 as stated fails: a clarity score stored as the integer 0 exists and
    is not null, yet the conditional of line 157 tests its truth value and
    the ViewRecord carries no clarity score. *)
Lemma zero_score_counterexample :
  nested item_zero_clarity "repo_analysis" "problem_clarity_score" = Some (VInt 0)
  /\ VInt 0 <> VNone
  /\ format_item item_zero_clarity = Ok default_repo_data
  /\ problem_clarity_score default_repo_data = None
  /\ problem_clarity_score default_repo_data <> Some 0.
Proof.
  split; [vm_compute; reflexivity|]. split; [discriminate|].
  split; [vm_compute; reflexivity|]. split; [reflexivity | discriminate].
Qed.

(** ** Default strings *)

Lemma dict_get_missing (d : gmap string pyval) (k : string) (dflt : pyval) :
  d !! k = None -> dict_get d k dflt = dflt.
Proof. unfold dict_get. now intros ->. Qed.

(** C8 (as amended): for every RawRecord that normalises, an absent field
    is replaced by the literal of the source: [repo_name] by "Unknown",
    the description by "No description available", [problem_solved] by
    "Not analyzed", the praise quote and the criticism by the empty
    string. *)
Theorem string_defaults (it : item) (r : repo_data) :
  format_item it = Ok r ->
  (it !! "repo_name" = None -> repo_name r = VStr "Unknown")
  /\ (nested it "oss_insight_data" "description" = None ->
      description r = VStr "No description available")
  /\ (nested it "repo_analysis" "problem_solved" = None ->
      problem_solved r = VStr "Not analyzed")
  /\ (nested it "community_analysis" "key_praise_quote" = None ->
      key_praise_quote r = VStr "")
  /\ (nested it "community_analysis" "main_criticism" = None ->
      main_criticism r = VStr "").
Proof.
  intros H. apply format_item_inv in H as (oss & ra & ca & []).
  rewrite !(nested_of_dict_get _ _ _ rd_oss0).
  rewrite !(nested_of_dict_get _ _ _ rd_ra0).
  rewrite !(nested_of_dict_get _ _ _ rd_ca0).
  rewrite rd_name0, rd_descr0, rd_solved0, rd_praise0, rd_criticism0.
  repeat split; apply dict_get_missing.
Qed.

Lemma string_defaults_witness :
  ((∅ : item) !! "repo_name" = None -> repo_name default_repo_data = VStr "Unknown")
  /\ (nested ∅ "oss_insight_data" "description" = None ->
      description default_repo_data = VStr "No description available")
  /\ (nested ∅ "repo_analysis" "problem_solved" = None ->
      problem_solved default_repo_data = VStr "Not analyzed")
  /\ (nested ∅ "community_analysis" "key_praise_quote" = None ->
      key_praise_quote default_repo_data = VStr "")
  /\ (nested ∅ "community_analysis" "main_criticism" = None ->
      main_criticism default_repo_data = VStr "").
Proof.
  apply (string_defaults ∅ default_repo_data). vm_compute. reflexivity.
Defined.

(** C8 as stated fails on the letter case of three sentinels: the record
    without any field gets "Unknown", "No description available" and
    "Not analyzed", none of which is the lower-case string of the claim. *)
Lemma lowercase_sentinel_counterexample :
  (∅ : item) !! "repo_name" = None
  /\ format_item ∅ = Ok default_repo_data
  /\ repo_name default_repo_data <> VStr "unknown"
  /\ description default_repo_data <> VStr "no description available"
  /\ problem_solved default_repo_data <> VStr "not analyzed".
Proof.
  split; [reflexivity|]. split; [vm_compute; reflexivity|].
  repeat split; discriminate.
Qed.

(** ** The handler and the cache of [load_dynamodb_data] *)

(** The body never lets an exception out: the handler turns it into []. *)
Lemma load_dynamodb_data_body_returns (store : result (list item)) (limit : Z) :
  exists v msgs, load_dynamodb_data_body store limit = (Ok v, msgs).
Proof.
  unfold load_dynamodb_data_body.
  destruct (store ≫= _) as [r|e]; eauto.
Qed.

Lemma load_dynamodb_data_returns (store : result (list item)) (now limit : Z)
  (s : app_state) :
  exists v s', load_dynamodb_data store now limit s = (Ok v, s').
Proof.
  unfold load_dynamodb_data.
  destruct (cache_lookup now limit (cache s)) as [v|]; [eauto|].
  destruct (load_dynamodb_data_body_returns store limit) as (v & msgs & ->). eauto.
Qed.

Lemma load_miss (store : result (list item)) (now limit : Z) (s : app_state)
  (v : list item) (msgs : list string) :
  cache_lookup now limit (cache s) = None ->
  load_dynamodb_data_body store limit = (Ok v, msgs) ->
  load_dynamodb_data store now limit s
  = (Ok v, {| cache := <[limit := (now, v)]> (cache s);
              scans := S (scans s);
              notices := notices s ++ msgs |}).
Proof. unfold load_dynamodb_data. now intros -> ->. Qed.

Lemma load_hit (store : result (list item)) (now limit : Z) (s : app_state)
  (v : list item) :
  cache_lookup now limit (cache s) = Some v ->
  load_dynamodb_data store now limit s = (Ok v, s).
Proof. unfold load_dynamodb_data. now intros ->. Qed.

Lemma cache_lookup_fresh {A} (now cached_at key : Z) (v : A) (c : gmap Z (Z * A)) :
  now - cached_at < ttl ->
  cache_lookup now key (<[key := (cached_at, v)]> c) = Some v.
Proof.
  intros H. unfold cache_lookup. rewrite lookup_insert_eq.
  now rewrite bool_decide_eq_true_2.
Qed.

Lemma cache_lookup_stale {A} (now cached_at key : Z) (v : A) (c : gmap Z (Z * A)) :
  ttl <= now - cached_at ->
  cache_lookup now key (<[key := (cached_at, v)]> c) = None.
Proof.
  intros H. unfold cache_lookup. rewrite lookup_insert_eq.
  rewrite bool_decide_eq_false_2; [reflexivity | lia].
Qed.

Lemma scan_failure_load (e : pyexn) (now limit : Z) (s : app_state) :
  cache_lookup now limit (cache s) = None ->
  exists s', load_dynamodb_data (Raise e) now limit s = (Ok [], s').
Proof. intros Hmiss. eexists. apply load_miss; [exact Hmiss | reflexivity]. Qed.

(** C3 (as amended): whenever the store fails during a call that reaches
    it, [load_dynamodb_data] does not raise: it reports the failure with
    [st.error] and returns the empty list to its caller as an ordinary
    result. *)
Theorem scan_failure_returns_empty (e : pyexn) (now limit : Z) (s : app_state) :
  cache_lookup now limit (cache s) = None ->
  exists s',
    load_dynamodb_data (Raise e) now limit s = (Ok [], s')
    /\ scans s' = S (scans s)
    /\ notices s' = (notices s
                     ++ ["Error loading data from DynamoDB: " +:+ exn_text e])%list.
Proof.
  intros Hmiss. eexists. split.
  - apply load_miss; [exact Hmiss | reflexivity].
  - split; reflexivity.
Qed.

Lemma scan_failure_returns_empty_witness :
  exists s',
    load_dynamodb_data (Raise (ClientError "AccessDenied")) 0 20 initial_state
    = (Ok [], s')
    /\ scans s' = S (scans initial_state)
    /\ notices s' = (notices initial_state
                     ++ ["Error loading data from DynamoDB: "
                         +:+ exn_text (ClientError "AccessDenied")])%list.
Proof.
  apply (scan_failure_returns_empty (ClientError "AccessDenied") 0 20 initial_state).
  reflexivity.
Defined.

(** C3 as stated fails: after a failed scan the caller receives the list
    [] and no error, and that list is stored under the limit; at second 299
    it is still what a call returns, although the store answers again. *)
Lemma scan_failure_counterexample :
  load_dynamodb_data (Raise (ClientError "AccessDenied")) 0 20 initial_state
  = (Ok [],
     {| cache := {[ 20 := (0, []) ]};
        scans := 1;
        notices := ["Error loading data from DynamoDB: AccessDenied"] |})
  /\ fst (load_dynamodb_data (Raise (ClientError "AccessDenied")) 0 20 initial_state)
     <> Raise (ClientError "AccessDenied")
  /\ fst (load_dynamodb_data (Ok [item_A]) 299 20
            {| cache := {[ 20 := (0, []) ]};
               scans := 1;
               notices := ["Error loading data from DynamoDB: AccessDenied"] |})
     = Ok [].
Proof.
  split; [vm_compute; reflexivity|]. split; [discriminate|].
  vm_compute. reflexivity.
Qed.

(** C5: with [ttl = 300], after a successful fetch at [t0] a lookup with
    the same limit less than 300 seconds later (at 299 when [t0 = 0])
    returns the cached sequence and leaves the state, the scan count
    included, as it was, whatever the store would answer; a lookup 300
    seconds later or more (at 301) runs one more scan and stores its result
    with the new time. *)
Theorem cache_hit_within_ttl_refetch_after
  (s0 : app_state) (limit t0 t1 t2 : Z) (items : list item)
  (store1 store2 : result (list item)) :
  cache_lookup t0 limit (cache s0) = None ->
  t1 - t0 < ttl ->
  ttl <= t2 - t0 ->
  exists v s1,
    load_dynamodb_data (Ok items) t0 limit s0 = (Ok v, s1)
    /\ scans s1 = S (scans s0)
    /\ cache s1 !! limit = Some (t0, v)
    /\ load_dynamodb_data store1 t1 limit s1 = (Ok v, s1)
    /\ exists v2 s2,
         load_dynamodb_data store2 t2 limit s1 = (Ok v2, s2)
         /\ fst (load_dynamodb_data_body store2 limit) = Ok v2
         /\ scans s2 = S (scans s1)
         /\ cache s2 !! limit = Some (t2, v2).
Proof.
  intros Hmiss Hfresh Hstale.
  destruct (load_dynamodb_data_body_returns (Ok items) limit) as (v & msgs & Hb).
  destruct (load_dynamodb_data_body_returns store2 limit) as (v2 & msgs2 & Hb2).
  eexists v, _. split; [exact (load_miss _ _ _ _ _ _ Hmiss Hb)|].
  split; [reflexivity|]. split; [apply lookup_insert_eq|].
  split.
  - apply load_hit. simpl. now apply cache_lookup_fresh.
  - eexists v2, _. split.
    + apply load_miss; [|exact Hb2]. simpl. now apply cache_lookup_stale.
    + rewrite Hb2. split; [reflexivity|]. split; [reflexivity|].
      apply lookup_insert_eq.
Qed.

Lemma cache_hit_within_ttl_refetch_after_witness :
  exists v s1,
    load_dynamodb_data (Ok [item_B; item_A]) 0 20 initial_state = (Ok v, s1)
    /\ scans s1 = S (scans initial_state)
    /\ cache s1 !! 20 = Some (0, v)
    /\ load_dynamodb_data (Raise (ClientError "down")) 299 20 s1 = (Ok v, s1)
    /\ exists v2 s2,
         load_dynamodb_data (Ok [item_A]) 301 20 s1 = (Ok v2, s2)
         /\ fst (load_dynamodb_data_body (Ok [item_A]) 20) = Ok v2
         /\ scans s2 = S (scans s1)
         /\ cache s2 !! 20 = Some (301, v2).
Proof.
  apply (cache_hit_within_ttl_refetch_after initial_state 20 0 299 301
           [item_B; item_A] (Raise (ClientError "down")) (Ok [item_A])).
  - reflexivity.
  - unfold ttl. lia.
  - unfold ttl. lia.
Defined.

(** ** The summary of [main] *)

Lemma bind_Raise_inv {A B} (f : A -> result B) (m : result A) (e : pyexn) :
  (m ≫= f) = Raise e -> m = Raise e \/ exists a, m = Ok a /\ f a = Raise e.
Proof.
  destruct m as [a|e']; intros H.
  - right. exists a. split; [reflexivity | exact H].
  - left. rewrite bind_Raise in H. now inversion H.
Qed.

Lemma py_float_raises (v : pyval) (e : pyexn) :
  py_float v = Raise e -> coercion_error e.
Proof.
  unfold coercion_error. intros H.
  destruct v; simpl in H; try discriminate H;
    try (inversion H; auto; fail).
  destruct (float_of_string s); inversion H; auto.
Qed.

Lemma py_int_raises (v : pyval) (e : pyexn) :
  py_int v = Raise e -> coercion_error e.
Proof.
  unfold coercion_error. intros H.
  destruct v; simpl in H; try discriminate H;
    try (inversion H; auto; fail).
  destruct (int_of_string s); inversion H; auto.
Qed.

Lemma py_get_raises (v : pyval) (k : string) (dflt : pyval) (e : pyexn) :
  py_get v k dflt = Raise e -> coercion_error e.
Proof.
  unfold coercion_error. destruct v; simpl; try discriminate;
    intros H; inversion H; auto.
Qed.

Lemma opt_score_raises (d : pyval) (k : string) (e : pyexn) :
  opt_score d k = Raise e -> coercion_error e.
Proof.
  unfold opt_score. intros H.
  apply bind_Raise_inv in H as [H | (c & _ & H)]; [now apply py_get_raises in H|].
  destruct (truthy c); [|discriminate].
  apply bind_Raise_inv in H as [H | (v & _ & H)]; [now apply py_get_raises in H|].
  apply bind_Raise_inv in H as [H | (n & _ & H)]; [now apply py_int_raises in H|].
  discriminate.
Qed.

Ltac raise_inv H :=
  let a := fresh "a" in
  apply bind_Raise_inv in H as [H | (a & _ & H)];
  [ first [ now apply py_float_raises in H
          | now apply py_int_raises in H
          | now apply py_get_raises in H
          | now apply opt_score_raises in H
          | idtac ]
  | cbv beta in H ].

Lemma format_item_raises (it : item) (e : pyexn) :
  format_item it = Raise e -> coercion_error e.
Proof.
  unfold format_item. intros H.
  raise_inv H.
  raise_inv H. { raise_inv H. now apply py_int_raises in H. }
  raise_inv H. { raise_inv H. now apply py_float_raises in H. }
  do 10 raise_inv H.
  discriminate.
Qed.

Lemma format_repo_data_raises (items : list item) (e : pyexn) :
  format_repo_data items = Raise e -> coercion_error e.
Proof.
  rewrite format_repo_data_elementwise_eq.
  induction items as [|it rest IH]; simpl; [discriminate|].
  intros H. apply bind_Raise_inv in H as [H | (r & _ & H)];
    [now apply format_item_raises in H|].
  apply bind_Raise_inv in H as [H | (rs & _ & H)]; [auto | discriminate].
Qed.



Lemma fold_left_stars (repos : list repo_data) (acc : Z) :
  fold_left (fun a r => a + stars r) repos acc
  = acc + fold_right Z.add 0 (map stars repos).
Proof.
  revert acc. induction repos as [|r rest IH]; intros acc; simpl; [lia|].
  rewrite IH. lia.
Qed.

Lemma sum_stars_fold_right (repos : list repo_data) :
  sum_stars repos = fold_right Z.add 0 (map stars repos).
Proof. unfold sum_stars. now rewrite fold_left_stars. Qed.


Lemma summarize_nonempty (repos : list repo_data) :
  repos <> [] ->
  summarize repos
  = Ok {| count := length repos;
          average_score := float_div_int (sum_scores repos) (Z.of_nat (length repos));
          total_popularity := sum_stars repos;
          analyzed_count := analyzed_repos repos |}.
Proof.
  intros Hne. unfold summarize, py_truediv.
  destruct (Z.eqb_spec (Z.of_nat (length repos)) 0) as [E|E]; [|reflexivity].
  destruct repos; [contradiction | simpl in E; lia].
Qed.

Lemma main_after_load (store : result (list item)) (now limit : Z) (s s1 : app_state)
  (v : list item) :
  load_dynamodb_data store now limit s = (Ok v, s1) ->
  main store now limit s
  = match format_repo_data v with
    | Raise e => (Raise e, s1)
    | Ok [] => (Ok NoData, add_notice no_data_notice s1)
    | Ok (r :: rest) =>
        match summarize (r :: rest) with
        | Ok sm => (Ok (Dashboard sm (r :: rest)), s1)
        | Raise e => (Raise e, s1)
        end
    end.
Proof.
  unfold main. intros ->. rewrite bind_Ok.
  destruct (format_repo_data v) as [[|r rest]|e]; reflexivity.
Qed.





(** C10: the figures of [main] sit behind the emptiness test of line 228:
    [main] never ends in a division by zero; when it shows a summary the
    record list is non-empty and the mean was divided by its positive
    length; when the normalised list is empty, as it is after a store
    failure, [main] returns with the notice and no summary. Without the
    test the mean over [] would raise. *)
Theorem main_guards_division (store : result (list item)) (now limit : Z)
  (s : app_state) :
  fst (main store now limit s) <> Raise ZeroDivisionError
  /\ (forall sm repos,
        fst (main store now limit s) = Ok (Dashboard sm repos) ->
        0 < Z.of_nat (length repos)
        /\ py_truediv (sum_scores repos) (Z.of_nat (length repos))
           = Ok (average_score sm))
  /\ ((raw ← fst (load_dynamodb_data store now limit s); format_repo_data raw) = Ok [] ->
      fst (main store now limit s) = Ok NoData)
  /\ (forall e, store = Raise e -> cache_lookup now limit (cache s) = None ->
      fst (main store now limit s) = Ok NoData)
  /\ summarize [] = Raise ZeroDivisionError.
Proof.
  destruct (load_dynamodb_data_returns store now limit s) as (v & s1 & Hload).
  pose proof (main_after_load _ _ _ _ _ _ Hload) as Hmain.
  assert (Hmiss : forall e, store = Raise e ->
                            cache_lookup now limit (cache s) = None -> v = []).
  { intros e -> Hm.
    destruct (scan_failure_load e now limit s Hm) as (s' & Hl).
    rewrite Hl in Hload. now inversion Hload. }
  rewrite Hload. simpl fst. rewrite bind_Ok.
  destruct (format_repo_data v) as [[|r rest]|e] eqn:Hfmt.
  - rewrite Hmain. simpl. repeat split; try discriminate; auto.
  - assert (Hne : r :: rest <> []) by discriminate.
    rewrite (summarize_nonempty _ Hne) in Hmain. rewrite Hmain. simpl fst.
    split; [discriminate|]. split.
    { intros sm repos H. inversion H; subst. split; [simpl; lia|].
      unfold py_truediv. simpl length.
      destruct (Z.eqb_spec (Z.of_nat (S (length rest))) 0); [lia | reflexivity]. }
    split; [discriminate|]. split; [|reflexivity].
    intros e He Hm. rewrite (Hmiss e He Hm) in Hfmt. discriminate.
  - rewrite Hmain. simpl fst.
    apply format_repo_data_raises in Hfmt as Herr.
    split. { intros H. inversion H; subst. destruct Herr as [|[|]]; discriminate. }
    split; [discriminate|]. split; [discriminate|]. split; [|reflexivity].
    intros e' He Hm. rewrite (Hmiss e' He Hm) in Hfmt. discriminate.
Qed.

(** ** The two-record example *)

(** C7: for the records A with [final_score] "7.5" and B with
    [final_score] 3, whichever comes first in the scan, ranking with
    limit 2 and normalising return A then B with scores 7.5 and 3.0: the
    string is read as the float 7.5 by the sort key and by the ViewRecord
    field. *)
Theorem string_score_coerced_and_ranked :
  sort_key item_A = Ok (15 # 2)%Q
  /\ sort_key item_B = Ok 3%Q
  /\ rank [item_A; item_B] 2 = Ok [item_A; item_B]
  /\ rank [item_B; item_A] 2 = Ok [item_A; item_B]
  /\ format_repo_data [item_A; item_B] = Ok [repo_A; repo_B]
  /\ map repo_name [repo_A; repo_B] = [VStr "A"; VStr "B"]
  /\ map final_score [repo_A; repo_B] = [FFinite (15 # 2); FFinite 3]
  /\ (15 # 2 == 7.5)%Q
  /\ exists sm s',
       main (Ok [item_B; item_A]) 0 2 initial_state
       = (Ok (Dashboard sm [repo_A; repo_B]), s').
Proof.
  repeat (split; [vm_compute; reflexivity|]).
  eexists _, _. vm_compute. reflexivity.
Qed.

(* ================================================================== *)
(** * Further properties *)

(** ** More on ranking *)

Lemma sort_key_field_ok (x : item) (k : pyfloat) :
  sort_key x = Ok k -> float_field_ok (x !! "final_score") = true.
Proof.
  unfold sort_key, dict_get, float_field_ok, float_coercible.
  destruct (x !! "final_score") as [v|]; simpl; [|reflexivity].
  now intros ->.
Qed.

Lemma eval_keys_ok_inv (items : list item) (ks : list (pyfloat * item)) :
  eval_keys sort_key items = Ok ks ->
  Forall (fun x => float_field_ok (x !! "final_score") = true) items.
Proof.
  revert ks. induction items as [|x r IH]; simpl; intros ks H; [constructor|].
  bind_inv H. bind_inv H. constructor; [eapply sort_key_field_ok; eassumption|].
  eapply IH; eassumption.
Qed.

Lemma rank_Ok_inv (items ranked : list item) (limit : Z) :
  rank items limit = Ok ranked ->
  Forall (fun x => float_field_ok (x !! "final_score") = true) items
  /\ exists s, sorted_items items = Ok s /\ ranked = py_slice_to s limit.
Proof.
  unfold rank. intros H. bind_inv H. inversion H; subst. split; [|eauto].
  unfold sorted_items, py_sorted_reverse in Ha. bind_inv Ha.
  eapply eval_keys_ok_inv; eassumption.
Qed.

Lemma py_slice_to_take {A} (l : list A) (n : Z) :
  exists k, py_slice_to l n = take k l.
Proof. unfold py_slice_to. destruct (0 <=? n); eauto. Qed.

Lemma sorted_take {A} (R : A -> A -> Prop) (k : nat) (l : list A) :
  StronglySorted R l -> StronglySorted R (take k l).
Proof.
  intros H. rewrite <- (take_drop k l) in H.
  eapply StronglySorted_app_1_l, H.
Qed.

Lemma rank_sorted (items ranked : list item) (limit : Z) :
  Forall (fun x => rankable x = true) items ->
  rank items limit = Ok ranked ->
  StronglySorted (fun a b => float_leb (score_of b) (score_of a) = true) ranked.
Proof.
  intros Hrk H. apply rank_Ok_inv in H as (_ & s & Hs & ->).
  destruct (sorted_items_spec items Hrk) as (s' & Hs' & _ & Hsorted & _).
  rewrite Hs in Hs'. inversion Hs'; subst s'.
  destruct (py_slice_to_take s limit) as [k ->]. now apply sorted_take.
Qed.

(** X1: a negative [limit] is taken by the slice as a count from the end:
    on records whose score is missing or is converted by [float] to a
    number, not to NaN, the step returns the ranking without its last
    [-limit] records (nothing when there are no more than that), still
    sorted, and what it drops scores no higher than what it keeps. *)
Theorem rank_negative_limit (items : list item) (limit : Z) :
  Forall (fun x => rankable x = true) items ->
  limit < 0 ->
  exists ranked dropped,
    rank items limit = Ok ranked
    /\ length ranked = (length items - Z.to_nat (- limit))%nat
    /\ length dropped = Nat.min (Z.to_nat (- limit)) (length items)
    /\ Permutation (ranked ++ dropped) items
    /\ StronglySorted (fun a b => float_leb (score_of b) (score_of a) = true) ranked
    /\ (forall x y, x ∈ ranked -> y ∈ dropped ->
                    float_leb (score_of y) (score_of x) = true).
Proof.
  intros Hok Hneg.
  destruct (sorted_items_spec items Hok) as (s & Hs & Hperm & Hsorted & _).
  pose proof (Permutation_length Hperm) as Hlen.
  set (k := (length s - Z.to_nat (- limit))%nat).
  assert (Hsplit : StronglySorted
                     (fun a b => float_leb (score_of b) (score_of a) = true)
                     (take k s ++ drop k s)) by now rewrite take_drop.
  exists (take k s), (drop k s). repeat split.
  - unfold rank. rewrite Hs, bind_Ok. unfold py_slice_to.
    destruct (Z.leb_spec 0 limit); [lia | reflexivity].
  - rewrite length_take. unfold k. lia.
  - rewrite length_drop. unfold k. lia.
  - now rewrite take_drop.
  - now apply sorted_take.
  - intros x y Hx Hy. exact (StronglySorted_app_1_elem_of _ _ _ _ _ Hsplit Hx Hy).
Qed.

Lemma rank_negative_limit_witness :
  exists ranked dropped,
    rank [item_B; item_A; item_analyzed] (-1) = Ok ranked
    /\ length ranked = (length [item_B; item_A; item_analyzed] - Z.to_nat (- (-1)))%nat
    /\ length dropped = Nat.min (Z.to_nat (- (-1))) (length [item_B; item_A; item_analyzed])
    /\ Permutation (ranked ++ dropped) [item_B; item_A; item_analyzed]
    /\ StronglySorted (fun a b => float_leb (score_of b) (score_of a) = true) ranked
    /\ (forall x y, x ∈ ranked -> y ∈ dropped ->
                    float_leb (score_of y) (score_of x) = true).
Proof.
  apply (rank_negative_limit [item_B; item_A; item_analyzed] (-1)).
  - repeat constructor; vm_compute; reflexivity.
  - lia.
Defined.





(** ** From the scan to the page *)

Lemma format_item_score (it : item) (r : repo_data) :
  format_item it = Ok r -> score_of it = final_score r.
Proof.
  intros H. apply format_item_inv in H as (oss & ra & ca & []).
  unfold score_of, sort_key. now rewrite rd_score0.
Qed.

Lemma sorted_formatted (ranked : list item) (repos : list repo_data) :
  Forall2 (fun it r => format_item it = Ok r) ranked repos ->
  StronglySorted (fun a b : item => float_leb (score_of b) (score_of a) = true)
                 ranked ->
  StronglySorted (fun a b : repo_data =>
                    float_leb (final_score b) (final_score a) = true) repos.
Proof.
  induction 1 as [|it r its rs Hr Hrest IH]; intros Hs; [constructor|].
  inversion Hs as [|? ? Hs' Hall]; subst. constructor; [auto|].
  clear IH Hs Hs'. induction Hrest as [|it' r' its' rs' Hr' _ IH]; [constructor|].
  inversion Hall; subst. constructor; [|auto].
  now rewrite <- (format_item_score _ _ Hr), <- (format_item_score _ _ Hr').
Qed.

(** What a call that reaches the store hands to [format_repo_data]. *)
Lemma load_miss_cases (items : list item) (now limit : Z) (s : app_state) :
  cache_lookup now limit (cache s) = None ->
  (exists ranked s1,
     rank items limit = Ok ranked
     /\ load_dynamodb_data (Ok items) now limit s = (Ok ranked, s1)
     /\ notices s1 = notices s)
  \/ (exists e s1,
        rank items limit = Raise e
        /\ load_dynamodb_data (Ok items) now limit s = (Ok [], s1)
        /\ notices s1
           = (notices s ++ ["Error loading data from DynamoDB: " +:+ exn_text e])%list).
Proof.
  intros Hmiss. destruct (rank items limit) as [ranked|e] eqn:Hrank.
  - left. eexists ranked, _. split; [reflexivity|]. split.
    + apply load_miss; [exact Hmiss|].
      unfold load_dynamodb_data_body. now rewrite bind_Ok, Hrank.
    + simpl. apply app_nil_r.
  - right. eexists e, _. split; [reflexivity|]. split.
    + apply load_miss; [exact Hmiss|].
      unfold load_dynamodb_data_body. now rewrite bind_Ok, Hrank.
    + reflexivity.
Qed.

Lemma rankable_intro (x : item) :
  float_field_ok (x !! "final_score") = true ->
  is_nan (score_of x) = false ->
  rankable x = true.
Proof.
  intros Hok Hnan. unfold rankable. rewrite (sort_key_ok x Hok).
  now rewrite Hnan.
Qed.

(** X3: the leaderboard is in the order of the scores it shows: when no
    score of the scan is read by [float] as NaN and a call that reaches
    the store ends in a dashboard, its records are non-increasing by their
    [final_score] field, the float the sort key was computed from. *)
Theorem leaderboard_sorted_by_displayed_score
  (items : list item) (now limit : Z) (s : app_state)
  (sm : Summary) (repos : list repo_data) :
  cache_lookup now limit (cache s) = None ->
  Forall (fun x => is_nan (score_of x) = false) items ->
  fst (main (Ok items) now limit s) = Ok (Dashboard sm repos) ->
  StronglySorted (fun a b => float_leb (final_score b) (final_score a) = true) repos.
Proof.
  intros Hmiss Hnan Hmain.
  destruct (load_miss_cases items now limit s Hmiss)
    as [(ranked & s1 & Hrank & Hload & _) | (e & s1 & _ & Hload & _)];
    rewrite (main_after_load _ _ _ _ _ _ Hload) in Hmain.
  - destruct (format_repo_data ranked) as [[|r rest]|e] eqn:Hfmt;
      try discriminate Hmain.
    rewrite summarize_nonempty in Hmain by discriminate.
    inversion Hmain; subst repos.
    rewrite format_repo_data_elementwise_eq in Hfmt.
    apply map_result_Forall2 in Hfmt.
    apply (sorted_formatted ranked); [exact Hfmt|].
    apply (rank_sorted items ranked limit); [|exact Hrank].
    apply rank_Ok_inv in Hrank as (Hok & _).
    rewrite Forall_forall in *. intros x Hx.
    apply rankable_intro; auto.
  - discriminate Hmain.
Qed.

Lemma leaderboard_sorted_by_displayed_score_witness :
  StronglySorted (fun a b => float_leb (final_score b) (final_score a) = true)
                 [repo_analyzed; repo_A].
Proof.
  eapply (leaderboard_sorted_by_displayed_score
            [item_B; item_A; item_analyzed] 0 2 initial_state).
  - reflexivity.
  - repeat constructor; vm_compute; reflexivity.
  - vm_compute. reflexivity.
Defined.

Lemma eval_keys_raises {A} (key : A -> result pyfloat) (l : list A) :
  Exists (fun x => is_ok (key x) = false) l ->
  exists e x, x ∈ l /\ key x = Raise e /\ eval_keys key l = Raise e.
Proof.
  induction l as [|x r IH]; intros H; [inversion H|].
  simpl. destruct (key x) as [k|e] eqn:Hk.
  - inversion H as [? ? Hx|? ? Hr]; subst; [rewrite Hk in Hx; discriminate|].
    destruct (IH Hr) as (e & y & Hy & Hky & He).
    exists e, y. split; [now right|]. split; [exact Hky|].
    now rewrite bind_Ok, He.
  - exists e, x. split; [now left|]. split; [exact Hk | reflexivity].
Qed.

Lemma score_rejected_sort_key (x : item) :
  score_rejected x = true -> is_ok (sort_key x) = false.
Proof.
  unfold score_rejected, sort_key, dict_get.
  destruct (x !! "final_score") as [v|]; simpl; [|discriminate].
  destruct v; simpl; try discriminate; try reflexivity.
  rewrite andb_true_iff. intros [_ H].
  now destruct (float_of_string s).
Qed.

(** X4: one refused score empties the whole leaderboard: if any record of
    the scan holds a [final_score] that [float] refuses (null, a list, a
    map, or an ASCII string that is no numeral), the sort raises a
    [TypeError] or a [ValueError], the handler reports it under the prefix
    of line 138 and returns [], and [main] ends with that notice and the
    "No data available" notice and no dashboard, whatever the other records
    are. *)
Theorem unreadable_score_empties_leaderboard
  (items : list item) (now limit : Z) (s : app_state) :
  cache_lookup now limit (cache s) = None ->
  Exists (fun x => score_rejected x = true) items ->
  exists e msg s',
    (e = TypeError \/ e = ValueError)
    /\ rank items limit = Raise e
    /\ main (Ok items) now limit s = (Ok NoData, s')
    /\ notices s'
       = (notices s ++ ["Error loading data from DynamoDB: " +:+ msg;
                        no_data_notice])%list.
Proof.
  intros Hmiss Hbad.
  assert (Hbad' : Exists (fun x => is_ok (sort_key x) = false) items).
  { eapply List.Exists_impl; [|exact Hbad]. apply score_rejected_sort_key. }
  destruct (eval_keys_raises sort_key items Hbad') as (e & x & _ & Hx & He).
  assert (Hrank : rank items limit = Raise e).
  { unfold rank, sorted_items, py_sorted_reverse. now rewrite He. }
  destruct (load_miss_cases items now limit s Hmiss)
    as [(ranked & s1 & Hr & _) | (e' & s1 & Hr & Hload & Hnot)];
    rewrite Hrank in Hr; [discriminate|]. inversion Hr; subst e'.
  exists e, (exn_text e), (add_notice no_data_notice s1).
  split.
  { unfold sort_key in Hx.
    destruct (dict_get x "final_score" (VInt 0)) as [| | | |str| |];
      simpl in Hx; try discriminate Hx; try (inversion Hx; auto; fail).
    destruct (float_of_string str); inversion Hx; auto. }
  split; [exact Hrank|]. split.
  - now rewrite (main_after_load _ _ _ _ _ _ Hload).
  - simpl. rewrite Hnot, <- app_assoc. reflexivity.
Qed.

Lemma unreadable_score_empties_leaderboard_witness :
  exists e msg s',
    (e = TypeError \/ e = ValueError)
    /\ rank [item_A; item_bad_score; item_B] 20 = Raise e
    /\ main (Ok [item_A; item_bad_score; item_B]) 0 20 initial_state = (Ok NoData, s')
    /\ notices s'
       = (notices initial_state
          ++ ["Error loading data from DynamoDB: " +:+ msg;
              no_data_notice])%list.
Proof.
  apply (unreadable_score_empties_leaderboard
           [item_A; item_bad_score; item_B] 0 20 initial_state).
  - reflexivity.
  - apply Exists_cons_tl, Exists_cons_hd. vm_compute. reflexivity.
Defined.

Lemma map_result_app_raise {A B} (f : A -> result B) (pre rest : list A)
  (bad : A) (ys : list B) (e : pyexn) :
  map_result f pre = Ok ys -> f bad = Raise e ->
  map_result f (pre ++ bad :: rest)%list = Raise e.
Proof.
  revert ys. induction pre as [|x pre IH]; simpl; intros ys Hpre Hbad.
  - now rewrite Hbad.
  - bind_inv Hpre. bind_inv Hpre. rewrite Ha, bind_Ok.
    now rewrite (IH _ Ha0 Hbad).
Qed.

(** X5: normalisation is all or nothing: when the records before a
    malformed one normalise and that one raises, [format_repo_data] raises
    the same exception whatever follows, and [main], which does not catch
    it, ends in that exception instead of a page with the good records. *)
Theorem first_failure_aborts_normalisation
  (pre rest : list item) (bad : item) (rs : list repo_data) (e : pyexn) :
  format_repo_data pre = Ok rs ->
  format_item bad = Raise e ->
  format_repo_data (pre ++ bad :: rest)%list = Raise e
  /\ forall store now limit s,
       fst (load_dynamodb_data store now limit s) = Ok (pre ++ bad :: rest)%list ->
       fst (main store now limit s) = Raise e.
Proof.
  intros Hpre Hbad.
  assert (H : format_repo_data (pre ++ bad :: rest)%list = Raise e).
  { rewrite format_repo_data_elementwise_eq in *.
    eapply map_result_app_raise; eassumption. }
  split; [exact H|]. intros store now limit s Hload.
  destruct (load_dynamodb_data store now limit s) as [r s1] eqn:E.
  simpl in Hload. subst r.
  now rewrite (main_after_load _ _ _ _ _ _ E), H.
Qed.

Lemma first_failure_aborts_normalisation_witness :
  format_repo_data ([item_A] ++ item_null_object :: [item_B])%list = Raise AttributeError
  /\ forall store now limit s,
       fst (load_dynamodb_data store now limit s)
       = Ok ([item_A] ++ item_null_object :: [item_B])%list ->
       fst (main store now limit s) = Raise AttributeError.
Proof.
  apply (first_failure_aborts_normalisation [item_A] [item_B] item_null_object [repo_A]).
  - vm_compute. reflexivity.
  - vm_compute. reflexivity.
Defined.

(** X6: [main] raises exactly when the normalisation of the loaded
    records raises, with that exception, and the exception is then a
    [TypeError], a [ValueError] or an [AttributeError]: loading and the
    summary never raise. *)
Theorem main_raises_only_from_normalisation
  (store : result (list item)) (now limit : Z) (s : app_state) (e : pyexn) :
  (fst (main store now limit s) = Raise e
   <-> (raw ← fst (load_dynamodb_data store now limit s); format_repo_data raw)
       = Raise e)
  /\ (fst (main store now limit s) = Raise e -> coercion_error e).
Proof.
  destruct (load_dynamodb_data_returns store now limit s) as (v & s1 & Hload).
  pose proof (main_after_load _ _ _ _ _ _ Hload) as Hmain.
  rewrite Hload. simpl fst. rewrite bind_Ok.
  destruct (format_repo_data v) as [[|r rest]|e'] eqn:Hfmt.
  - rewrite Hmain. split; [split|]; discriminate.
  - rewrite summarize_nonempty in Hmain by discriminate. rewrite Hmain.
    split; [split|]; discriminate.
  - rewrite Hmain. simpl. split.
    + split; intros H; inversion H; reflexivity.
    + intros H. inversion H; subst. exact (format_repo_data_raises _ _ Hfmt).
Qed.

(** X7: a default stands in for a missing key only: for every record that
    normalises, a field that is present is handed on as stored, whatever
    its value, so a stored null name or description reaches the page as
    [None] and not as the default text. *)
Theorem present_values_pass_through (it : item) (r : repo_data) :
  format_item it = Ok r ->
  (forall v, it !! "repo_name" = Some v -> repo_name r = v)
  /\ (forall v, it !! "analysis_date" = Some v -> analysis_date r = v)
  /\ (forall v, nested it "oss_insight_data" "description" = Some v -> description r = v)
  /\ (forall v, nested it "repo_analysis" "problem_solved" = Some v -> problem_solved r = v)
  /\ (forall v, nested it "community_analysis" "key_praise_quote" = Some v ->
                key_praise_quote r = v)
  /\ (forall v, nested it "community_analysis" "main_criticism" = Some v ->
                main_criticism r = v).
Proof.
  intros H. apply format_item_inv in H as (oss & ra & ca & []).
  rewrite !(nested_of_dict_get _ _ _ rd_oss0).
  rewrite !(nested_of_dict_get _ _ _ rd_ra0).
  rewrite !(nested_of_dict_get _ _ _ rd_ca0).
  rewrite rd_name0, rd_date0, rd_descr0, rd_solved0, rd_praise0, rd_criticism0.
  unfold dict_get. repeat split; intros v ->; reflexivity.
Qed.

Lemma present_values_pass_through_witness :
  (forall v, item_null_name !! "repo_name" = Some v -> repo_name repo_null_name = v)
  /\ (forall v, item_null_name !! "analysis_date" = Some v ->
                analysis_date repo_null_name = v)
  /\ (forall v, nested item_null_name "oss_insight_data" "description" = Some v ->
                description repo_null_name = v)
  /\ (forall v, nested item_null_name "repo_analysis" "problem_solved" = Some v ->
                problem_solved repo_null_name = v)
  /\ (forall v, nested item_null_name "community_analysis" "key_praise_quote" = Some v ->
                key_praise_quote repo_null_name = v)
  /\ (forall v, nested item_null_name "community_analysis" "main_criticism" = Some v ->
                main_criticism repo_null_name = v).
Proof.
  apply (present_values_pass_through item_null_name repo_null_name).
  vm_compute. reflexivity.
Defined.

(** ** More on the figures *)

Lemma filter_length_all {A} (f : A -> bool) (l : list A) :
  length (List.filter f l) = length l <-> Forall (fun x => f x = true) l.
Proof.
  induction l as [|x r IH]; simpl; [split; [constructor | reflexivity]|].
  pose proof (List.filter_length_le f r) as Hle.
  destruct (f x) eqn:E; simpl.
  - split.
    + intros H. constructor; [exact E|]. apply IH. lia.
    + intros H. inversion H; subst. f_equal. now apply IH.
  - split; [lia|]. intros H. inversion H; subst. congruence.
Qed.

(** X8: the "Analyzed" figure never exceeds the number of records, and
    equals it exactly when every record carries a clarity score. *)
Theorem analyzed_at_most_count (repos : list repo_data) :
  (analyzed_repos repos <= length repos)%nat
  /\ (analyzed_repos repos = length repos
      <-> Forall (fun r => is_Some (problem_clarity_score r)) repos).
Proof.
  unfold analyzed_repos. split; [apply List.filter_length_le|].
  rewrite filter_length_all. apply Forall_proper; [|reflexivity].
  intros r. unfold is_analyzed. destruct (problem_clarity_score r); split;
    intros H; try reflexivity; try discriminate; eauto.
  destruct H; discriminate.
Qed.

Lemma sum_stars_app (a b : list repo_data) :
  sum_stars (a ++ b) = sum_stars a + sum_stars b.
Proof.
  rewrite !sum_stars_fold_right, map_app, fold_right_app.
  induction (map stars a) as [|x l IH]; simpl; [reflexivity | lia].
Qed.

(** X9: the star total and the "Analyzed" figure depend on which records
    are shown, not on their order, and both add up over the concatenation
    of two record lists. *)
Theorem totals_ignore_order (repos repos' a b : list repo_data) :
  (Permutation repos repos' ->
   sum_stars repos = sum_stars repos' /\ analyzed_repos repos = analyzed_repos repos')
  /\ sum_stars (a ++ b) = sum_stars a + sum_stars b
  /\ analyzed_repos (a ++ b) = (analyzed_repos a + analyzed_repos b)%nat.
Proof.
  split; [|split].
  - intros Hperm. split.
    + induction Hperm as [|x l l' _ IH|x y l|l l' l'' _ IH1 _ IH2].
      * reflexivity.
      * rewrite !sum_stars_fold_right in *. simpl. lia.
      * rewrite !sum_stars_fold_right. simpl. lia.
      * congruence.
    + unfold analyzed_repos. apply Permutation_length.
      clear a b. induction Hperm; simpl.
      * constructor.
      * destruct (is_analyzed x); [constructor|]; assumption.
      * destruct (is_analyzed x), (is_analyzed y);
          first [apply perm_swap | reflexivity].
      * etransitivity; eassumption.
  - apply sum_stars_app.
  - unfold analyzed_repos. now rewrite List.filter_app, length_app.
Qed.

(** ** The leaderboard cards *)

Lemma enumerate_lookup {A} (start : Z) (l : list A) (k : nat) (x : A) :
  l !! k = Some x -> enumerate start l !! k = Some (start + Z.of_nat k, x).
Proof.
  revert start k. induction l as [|y r IH]; intros start k H; [discriminate|].
  destruct k as [|k]; simpl in *.
  - inversion H; subst. f_equal. f_equal. lia.
  - rewrite (IH (start + 1) k H). f_equal. f_equal. lia.
Qed.

Lemma enumerate_length {A} (start : Z) (l : list A) :
  length (enumerate start l) = length l.
Proof. revert start. induction l; intros start; simpl; [|rewrite IHl]; reflexivity. Qed.

(** X10: the leaderboard has one card per record, in the order of the
    records, and the card at position [k] (from 0) opens with the rank
    [k + 1], the badge of that rank, then the name and the score of the
    record at that position. *)
Theorem leaderboard_cards_in_rank_order
  (show_detailed_metrics : bool) (repos : list repo_data) :
  length (leaderboard show_detailed_metrics repos) = length repos
  /\ forall (k : nat) (repo : repo_data),
       repos !! k = Some repo ->
       exists rest,
         leaderboard show_detailed_metrics repos !! k
         = Some (RankBadge (Z.of_nat k + 1) (rank_badge (Z.of_nat k + 1))
                 :: Title (repo_name repo)
                 :: ScoreBadge (final_score repo)
                 :: rest).
Proof.
  unfold leaderboard. split.
  - now rewrite length_map, enumerate_length.
  - intros k repo H. rewrite list_lookup_fmap.
    rewrite (enumerate_lookup 1 repos k repo H). simpl.
    replace (1 + Z.of_nat k) with (Z.of_nat k + 1) by lia.
    eexists. reflexivity.
Qed.

(** Where a metric box of a card can come from. *)
Lemma render_repo_metric (d : bool) (idx : Z) (repo : repo_data)
  (lbl : metric_label) (v : option Z) :
  In (MetricBox lbl v) (render_repo d idx repo) ->
  d = true
  /\ (if is_repo_metric lbl
      then is_present (problem_clarity_score repo) = true
      else is_present (excitement_score repo) = true).
Proof.
  unfold render_repo.
  destruct d, (is_present (problem_clarity_score repo)),
    (is_present (excitement_score repo)),
    (truthy (problem_solved repo) && py_ne_str (problem_solved repo) "Not analyzed"),
    (truthy (key_praise_quote repo)), (truthy (main_criticism repo));
    simpl; intros H;
    repeat (destruct H as [H|H];
            [try discriminate H; inversion H; subst; simpl; auto|]);
    try contradiction.
Qed.

(** X11: the three repository metrics of a card stand or fall with the
    clarity score, and the three community metrics with the excitement
    score: a metric box is on the card only if detailed metrics are on and
    the leading score of its block is present, and then the block shows
    the other two scores as they are, absent ones included. *)
Theorem metric_blocks_follow_leading_score
  (show_detailed_metrics : bool) (idx : Z) (repo : repo_data) :
  (forall lbl v,
     In (MetricBox lbl v) (render_repo show_detailed_metrics idx repo) ->
     show_detailed_metrics = true
     /\ (if is_repo_metric lbl
         then is_Some (problem_clarity_score repo)
         else is_Some (excitement_score repo)))
  /\ (show_detailed_metrics = true -> is_Some (problem_clarity_score repo) ->
      In (MetricBox EaseOfAdoption (adoption_ease_score repo))
         (render_repo show_detailed_metrics idx repo)
      /\ In (MetricBox ProjectMaturity (maturity_health_score repo))
            (render_repo show_detailed_metrics idx repo))
  /\ (show_detailed_metrics = true -> is_Some (excitement_score repo) ->
      In (MetricBox SolutionFit (problem_solution_fit_score repo))
         (render_repo show_detailed_metrics idx repo)
      /\ In (MetricBox Credibility (credibility_adoption_score repo))
            (render_repo show_detailed_metrics idx repo)).
Proof.
  split; [|split].
  - intros lbl v H. apply render_repo_metric in H as [Hd H]. split; [exact Hd|].
    destruct (is_repo_metric lbl);
      [destruct (problem_clarity_score repo) | destruct (excitement_score repo)];
      eauto; discriminate.
  - intros -> [n Hn]. unfold render_repo. rewrite Hn.
    destruct (is_present (excitement_score repo)),
      (truthy (problem_solved repo) && py_ne_str (problem_solved repo) "Not analyzed"),
      (truthy (key_praise_quote repo)), (truthy (main_criticism repo));
      split; simpl; repeat (first [left; reflexivity | right]).
  - intros -> [n Hn]. unfold render_repo. rewrite Hn.
    destruct (is_present (problem_clarity_score repo)),
      (truthy (problem_solved repo) && py_ne_str (problem_solved repo) "Not analyzed"),
      (truthy (key_praise_quote repo)), (truthy (main_criticism repo));
      split; simpl; repeat (first [left; reflexivity | right]).
Qed.

Lemma render_repo_optional (d : bool) (idx : Z) (repo : repo_data) :
  (forall p, In (ProblemSolvedInfo p) (render_repo d idx repo) ->
             truthy (problem_solved repo)
             && py_ne_str (problem_solved repo) "Not analyzed" = true)
  /\ (forall q, In (PraiseBox q) (render_repo d idx repo) ->
                truthy (key_praise_quote repo) = true)
  /\ (forall c, In (CriticismBox c) (render_repo d idx repo) ->
                truthy (main_criticism repo) = true).
Proof.
  unfold render_repo.
  destruct d, (is_present (problem_clarity_score repo)),
    (is_present (excitement_score repo)),
    (truthy (problem_solved repo) && py_ne_str (problem_solved repo) "Not analyzed"),
    (truthy (key_praise_quote repo)), (truthy (main_criticism repo));
    simpl; repeat split; intros x H;
    repeat (destruct H as [H|H]; [discriminate H|]); contradiction.
Qed.

Lemma render_repo_fixed (d : bool) (idx : Z) (repo : repo_data) :
  In (Title (repo_name repo)) (render_repo d idx repo)
  /\ In (DescriptionInfo (description repo)) (render_repo d idx repo).
Proof. unfold render_repo. simpl. auto 10. Qed.

(** X12: of the defaults only the name and the description reach the
    page: for a record that normalises, a missing [problem_solved], praise
    quote or criticism puts no such box on its card, while a missing name
    is shown as "Unknown" and a missing description as "No description
    available". *)
Theorem defaults_on_card
  (show_detailed_metrics : bool) (idx : Z) (it : item) (repo : repo_data) :
  format_item it = Ok repo ->
  (nested it "repo_analysis" "problem_solved" = None ->
   forall p, ~ In (ProblemSolvedInfo p) (render_repo show_detailed_metrics idx repo))
  /\ (nested it "community_analysis" "key_praise_quote" = None ->
      forall q, ~ In (PraiseBox q) (render_repo show_detailed_metrics idx repo))
  /\ (nested it "community_analysis" "main_criticism" = None ->
      forall c, ~ In (CriticismBox c) (render_repo show_detailed_metrics idx repo))
  /\ (it !! "repo_name" = None ->
      In (Title (VStr "Unknown")) (render_repo show_detailed_metrics idx repo))
  /\ (nested it "oss_insight_data" "description" = None ->
      In (DescriptionInfo (VStr "No description available"))
         (render_repo show_detailed_metrics idx repo)).
Proof.
  intros H. apply format_item_inv in H as (oss & ra & ca & []).
  rewrite !(nested_of_dict_get _ _ _ rd_oss0).
  rewrite !(nested_of_dict_get _ _ _ rd_ra0).
  rewrite !(nested_of_dict_get _ _ _ rd_ca0).
  destruct (render_repo_optional show_detailed_metrics idx repo) as (Hp & Hq & Hc).
  destruct (render_repo_fixed show_detailed_metrics idx repo) as (Hn & Hd).
  repeat split.
  - intros E p Hin. apply Hp in Hin.
    rewrite rd_solved0, (dict_get_missing _ _ _ E) in Hin. discriminate.
  - intros E q Hin. apply Hq in Hin.
    rewrite rd_praise0, (dict_get_missing _ _ _ E) in Hin. discriminate.
  - intros E c Hin. apply Hc in Hin.
    rewrite rd_criticism0, (dict_get_missing _ _ _ E) in Hin. discriminate.
  - intros E. rewrite rd_name0, (dict_get_missing _ _ _ E) in Hn. exact Hn.
  - intros E. rewrite rd_descr0, (dict_get_missing _ _ _ E) in Hd. exact Hd.
Qed.

Lemma defaults_on_card_witness :
  (nested item_A "repo_analysis" "problem_solved" = None ->
   forall p, ~ In (ProblemSolvedInfo p) (render_repo true 1 repo_A))
  /\ (nested item_A "community_analysis" "key_praise_quote" = None ->
      forall q, ~ In (PraiseBox q) (render_repo true 1 repo_A))
  /\ (nested item_A "community_analysis" "main_criticism" = None ->
      forall c, ~ In (CriticismBox c) (render_repo true 1 repo_A))
  /\ (item_A !! "repo_name" = None ->
      In (Title (VStr "Unknown")) (render_repo true 1 repo_A))
  /\ (nested item_A "oss_insight_data" "description" = None ->
      In (DescriptionInfo (VStr "No description available"))
         (render_repo true 1 repo_A)).
Proof.
  apply (defaults_on_card true 1 item_A repo_A). vm_compute. reflexivity.
Defined.

(** X13: a clarity score that is missing or falsy (0, null, empty) hides
    the whole repository block: for a record that normalises, its card
    then carries no clarity, ease or maturity box, also when the ease or
    maturity score is there. *)
Theorem falsy_clarity_hides_repository_metrics
  (show_detailed_metrics : bool) (idx : Z) (it : item) (repo : repo_data) :
  format_item it = Ok repo ->
  (forall v, nested it "repo_analysis" "problem_clarity_score" = Some v ->
             truthy v = false) ->
  forall lbl val,
    In (MetricBox lbl val) (render_repo show_detailed_metrics idx repo) ->
    is_repo_metric lbl = false.
Proof.
  intros H Hfalsy lbl val Hin.
  apply render_repo_metric in Hin as [_ Hin].
  destruct (is_repo_metric lbl); [|reflexivity]. exfalso.
  apply format_item_inv in H as (oss & ra & ca & []).
  pose proof (opt_score_present _ _ _ rd_clarity0) as [Hpres _].
  rewrite <- (nested_of_dict_get _ _ _ rd_ra0) in Hpres.
  destruct (problem_clarity_score repo) as [n|]; [|discriminate].
  destruct Hpres as (v & Hv & Ht); [eauto|].
  rewrite (Hfalsy v Hv) in Ht. discriminate.
Qed.

Lemma falsy_clarity_hides_repository_metrics_witness :
  adoption_ease_score repo_ease_only = Some 4
  /\ forall lbl val,
       In (MetricBox lbl val) (render_repo true 1 repo_ease_only) ->
       is_repo_metric lbl = false.
Proof.
  split; [reflexivity|].
  apply (falsy_clarity_hides_repository_metrics true 1 item_ease_only repo_ease_only).
  - vm_compute. reflexivity.
  - intros v H. vm_compute in H. inversion H. reflexivity.
Defined.

(** ** The chart rows *)

Lemma case_char (b : bool) (c : ascii) :
  let c' := if b then to_lower c else to_upper c in
  is_cased c' = is_cased c
  /\ (if b then to_lower c' else to_upper c') = c'
  /\ to_lower c' = to_lower c
  /\ (c' = "_"%char -> c = "_"%char)
  /\ (c' = "-"%char -> c = "-"%char).
Proof.
  destruct b, c as [[] [] [] [] [] [] [] []]; vm_compute;
    repeat split; intros H; try reflexivity; discriminate H.
Qed.

Lemma title_from_length (b : bool) (s : string) :
  String.length (title_from b s) = String.length s.
Proof. revert b. induction s as [|c r IH]; intros b; simpl; [|rewrite IH]; reflexivity. Qed.

Lemma title_from_idem (b : bool) (s : string) :
  title_from b (title_from b s) = title_from b s.
Proof.
  revert b. induction s as [|c r IH]; intros b; [reflexivity|].
  cbn [title_from]. destruct (case_char b c) as (Hc & Hi & _).
  cbv zeta in Hc, Hi. rewrite Hi, Hc, IH. reflexivity.
Qed.

Lemma title_from_lower (b : bool) (s : string) :
  map to_lower (list_ascii_of_string (title_from b s))
  = map to_lower (list_ascii_of_string s).
Proof.
  revert b. induction s as [|c r IH]; intros b; [reflexivity|].
  cbn [title_from list_ascii_of_string map].
  destruct (case_char b c) as (_ & _ & Hl & _). cbv zeta in Hl.
  now rewrite Hl, IH.
Qed.

Lemma title_from_sep (b : bool) (s : string) (c : ascii) :
  In c (list_ascii_of_string (title_from b s)) ->
  (c = "_"%char -> In "_"%char (list_ascii_of_string s))
  /\ (c = "-"%char -> In "-"%char (list_ascii_of_string s)).
Proof.
  revert b. induction s as [|x r IH]; intros b; [contradiction|].
  cbn [title_from list_ascii_of_string In]. intros [H|H].
  - destruct (case_char b x) as (_ & _ & _ & Hu & Hd). cbv zeta in Hu, Hd.
    subst c. split; intros E; left; auto.
  - destruct (IH _ H) as [Hu Hd]. split; intros E; right; auto.
Qed.

Lemma replace_char_length (old new : ascii) (s : string) :
  String.length (replace_char old new s) = String.length s.
Proof. induction s as [|c r IH]; simpl; [|rewrite IH]; reflexivity. Qed.

Lemma replace_char_In (old new : ascii) (s : string) (c : ascii) :
  In c (list_ascii_of_string (replace_char old new s)) ->
  c = new \/ (c <> old /\ In c (list_ascii_of_string s)).
Proof.
  induction s as [|x r IH]; [contradiction|].
  cbn [replace_char list_ascii_of_string In]. intros [H|H].
  - destruct (Ascii.eqb_spec x old) as [E|E]; [now left|].
    right. subst c. split; [exact E | now left].
  - destruct (IH H) as [E|[E Hin]]; [now left|]. right. split; [exact E | now right].
Qed.

Lemma replace_char_absent (old new : ascii) (s : string) :
  ~ In old (list_ascii_of_string s) -> replace_char old new s = s.
Proof.
  induction s as [|x r IH]; [reflexivity|].
  cbn [replace_char list_ascii_of_string In]. intros H.
  destruct (Ascii.eqb_spec x old) as [E|E]; [exfalso; apply H; now left|].
  rewrite IH; [reflexivity|]. intros Hin. apply H. now right.
Qed.

Lemma display_name_no_separator (s : string) (c : ascii) :
  In c (list_ascii_of_string (display_name s)) ->
  c <> "_"%char /\ c <> "-"%char.
Proof.
  unfold display_name, py_title. intros H.
  destruct (title_from_sep _ _ _ H) as [Hu Hd]. split; intros E.
  - apply Hu, replace_char_In in E as [E|[_ E]]; [discriminate|].
    apply replace_char_In in E as [E|[E _]]; [discriminate | congruence].
  - apply Hd, replace_char_In in E as [E|[E _]]; [discriminate | congruence].
Qed.

(** X14: the display name of a chart bar has the length of the
    repository name, holds no underscore and no hyphen, and differs from
    the name with its separators blanked only in the case of letters. *)
Theorem display_name_shape (s : string) :
  String.length (display_name s) = String.length s
  /\ (forall c, In c (list_ascii_of_string (display_name s)) ->
                c <> "_"%char /\ c <> "-"%char)
  /\ map to_lower (list_ascii_of_string (display_name s))
     = map to_lower
         (list_ascii_of_string (replace_char "-" " " (replace_char "_" " " s))).
Proof.
  split; [|split].
  - unfold display_name, py_title.
    now rewrite title_from_length, !replace_char_length.
  - apply display_name_no_separator.
  - unfold display_name, py_title. apply title_from_lower.
Qed.

(** X15: on an ASCII repository name building the display name is
    idempotent: the display name is its own display name. *)
Theorem display_name_idempotent (s : string) :
  is_ascii s = true ->
  display_name (display_name s) = display_name s.
Proof.
  intros _.
  assert (Hu : ~ In "_"%char (list_ascii_of_string (display_name s))).
  { intros H. now apply display_name_no_separator in H as [H _]. }
  assert (Hd : ~ In "-"%char (list_ascii_of_string (display_name s))).
  { intros H. now apply display_name_no_separator in H as [_ H]. }
  unfold display_name at 1.
  rewrite (replace_char_absent _ _ _ Hu), (replace_char_absent _ _ _ Hd).
  unfold display_name, py_title. apply title_from_idem.
Qed.

Lemma display_name_idempotent_witness :
  display_name (display_name "my_repo-name") = display_name "my_repo-name".
Proof.
  apply (display_name_idempotent "my_repo-name"). vm_compute. reflexivity.
Defined.


